(** * ProfilingPlugin: a shallow embedding of lib/debug/ProfilingPlugin.js

    The plugin wraps every tap registered on the host's hooks so that each
    invocation is bracketed by a begin and an end trace event, and, when the
    build is done, folds a sampled CPU profile into the same trace.

    JavaScript features are embedded as follows.
    - A function is a Rocq function from its argument list and the world to a
      completion (normal return or throw) and the next world.
    - The [tracer] object made by [createTrace] is shared and mutated by every
      wrapper; it lives in the world, not in the closures.
    - A promise is the computation that the event loop performs when the
      pending operation settles: from the world at that moment it yields the
      settlement and the world after the reactions have run.
    - Numbers that the plugin computes with (the id counter, timestamps) are
      integers far below 2^53, where JavaScript arithmetic is exact; they are
      modelled by [Z].
    - The clock is a field of the world.  Work outside the plugin moves it;
      the plugin's own straight-line code reads it and takes no time. *)

From Stdlib Require Import ZArith Lia Sorted.
From stdpp Require Import base option list strings gmap sorting.

Local Open Scope Z_scope.
Local Set Warnings "-register-all".

(** ** Values *)

(** First-order JavaScript values.  [VObj] is a reference: two references are
    the same object exactly when they are equal, which is how the identity of
    an error object is tracked.  [VTypeError] is the error the engine raises
    when a non-function is called or a property of [undefined] is read;
    [VError] is an error raised by a module of the runtime, known by its
    code. *)
Inductive value : Type :=
| VUndefined
| VNull
| VNum (n : Z)
| VStr (s : string)
| VObj (ref : N)
| VTypeError (msg : string)
| VError (code : string).

(** The part of a V8 CPU profile the plugin looks at, and the rest of it. *)
Record Profile : Type := mkProfile {
  startTime : Z;
  endTime : Z;
  nodes : list value
}.

(** The [args] payload of a trace event. *)
Inductive json : Type :=
| JStr (s : string)
| JNum (n : Z)
| JArr (items : list json)
| JObj (fields : list (string * json))
| JProfile (p : Profile).

(** ** The trace-event log *)

Inductive phase : Type := PhInstant | PhBegin | PhEnd | PhComplete.

Record TraceEvent : Type := mkEvent {
  ev_name : string;
  ev_id : Z;
  ev_cat : list string;
  ev_ph : phase;
  ev_ts : Z;
  ev_dur : option Z;
  ev_args : option json
}.

(** The object literal handed to [trace.begin], [trace.end],
    [trace.instantEvent] and [trace.completeEvent]. *)
Record Fields : Type := mkFields {
  f_name : string;
  f_id : Z;
  f_cat : list string;
  f_ts : option Z;
  f_dur : option Z;
  f_args : option json
}.

(** Modelled from the spec: the [Tracer] class of the external trace-event
    package (section 4.1).  With [noStream: true] an event is stamped with
    the current clock reading, overridden by the caller's fields, and
    buffered; [flush] writes the buffer to the piped stream.  The constant
    [pid] and [tid] fields are left out, and [cat] is kept as the list the
    caller passes. *)
Record Trace : Type := mkTrace {
  events : list TraceEvent;
  stream : list TraceEvent
}.

Definition stamp (ph : phase) (f : Fields) (clock : Z) : TraceEvent :=
  {| ev_name := f_name f;
     ev_id := f_id f;
     ev_cat := f_cat f;
     ev_ph := ph;
     ev_ts := default clock (f_ts f);
     ev_dur := f_dur f;
     ev_args := f_args f |}.

Definition push (ph : phase) (f : Fields) (clock : Z) (t : Trace) : Trace :=
  {| events := events t ++ [stamp ph f clock]; stream := stream t |}.

Definition flush (t : Trace) : Trace :=
  {| events := events t; stream := stream t ++ events t |}.

(** ** The profiler *)

(** What [session.post] hands to its callback: an error, or the reply. *)
Inductive params : Type :=
| PUndefined
| PEmpty
| PProfile (p : Profile).

(** The [inspector] module, when [require] finds it: an external
    collaborator characterised by the pair [(err, params)] with which its
    session calls back for each method. *)
Record Inspector : Type := mkInspector {
  post : string -> value * params
}.

Record Session : Type := mkSession {
  connected : bool;
  origin : Inspector
}.

Record Profiler : Type := mkProfiler {
  session : option Session
}.

(** The record returned by [createTrace]. *)
Record Tracer : Type := mkTracer {
  trace : Trace;
  counter : Z;
  profiler : Profiler
}.

(** Calls that leave no other mark on the state are journalled, so that
    "called exactly once" is a statement about the world. *)
Inductive probe : Type :=
| Connect
| Post (method : string)
| Disconnect
| Destroy.

Global Instance probe_eq_dec : EqDecision probe.
Proof. solve_decision. Defined.

(** How a call ends, and how a promise settles. *)
Inductive completion (A : Type) : Type :=
| Normal (a : A)
| Throw (error : value).
Arguments Normal {A} a.
Arguments Throw {A} error.

Inductive settlement (A : Type) : Type :=
| Fulfilled (a : A)
| Rejected (reason : value).
Arguments Fulfilled {A} a.
Arguments Rejected {A} reason.

Section Plugin.

(** The host's own state, opaque to the plugin. *)
Context {Host : Type}.

(** [popped] holds, for the rest-parameter array [args] of the callback-style
    invocation with a given id, how many elements [pop] has removed from it:
    the array is private to that invocation's closure and nothing else ever
    mutates it. *)
Record World : Type := mkWorld {
  host : Host;
  now : Z;
  inspector : option Inspector;
  tracer : Tracer;
  popped : gmap Z nat;
  journal : list probe
}.

Definition with_tracer (t : Tracer) (w : World) : World :=
  {| host := host w; now := now w; inspector := inspector w; tracer := t;
     popped := popped w; journal := journal w |}.

Definition with_trace (t : Trace) (w : World) : World :=
  with_tracer {| trace := t; counter := counter (tracer w);
                 profiler := profiler (tracer w) |} w.

Definition with_counter (c : Z) (w : World) : World :=
  with_tracer {| trace := trace (tracer w); counter := c;
                 profiler := profiler (tracer w) |} w.

Definition with_session (s : option Session) (w : World) : World :=
  with_tracer {| trace := trace (tracer w); counter := counter (tracer w);
                 profiler := {| session := s |} |} w.

Definition with_host (h : Host) (w : World) : World :=
  {| host := h; now := now w; inspector := inspector w;
     tracer := tracer w; popped := popped w; journal := journal w |}.

Definition with_now (clock : Z) (w : World) : World :=
  {| host := host w; now := clock; inspector := inspector w;
     tracer := tracer w; popped := popped w; journal := journal w |}.

Definition with_popped (p : gmap Z nat) (w : World) : World :=
  {| host := host w; now := now w; inspector := inspector w;
     tracer := tracer w; popped := p; journal := journal w |}.

Definition note (p : probe) (w : World) : World :=
  {| host := host w; now := now w; inspector := inspector w;
     tracer := tracer w; popped := popped w; journal := journal w ++ [p] |}.

(** The events buffered so far. *)
Definition log (w : World) : list TraceEvent := events (trace (tracer w)).

(** ** Promises and callables *)

Definition promise : Type := World -> settlement value * World.

Inductive jsret : Type :=
| RVal (v : value)
| RPromise (p : promise).

(** A node-style callback receives first-order values. *)
Definition callback : Type := list value -> World -> completion jsret * World.

Inductive arg : Type :=
| Val (v : value)
| Fun (k : callback).

Definition callable : Type := list arg -> World -> completion jsret * World.

(** [f(...xs)] where [f] may be [undefined]. *)
Definition call (f : option callable) (xs : list arg) (w : World)
  : completion jsret * World :=
  match f with
  | Some g => g xs w
  | None => (Throw (VTypeError "fn is not a function"), w)
  end.

(** [p.then(h)] with no rejection handler. *)
Definition then_ (p : promise) (h : value -> World -> completion jsret * World)
  : promise :=
  fun w =>
    match p w with
    | (Fulfilled v, w1) =>
        match h v w1 with
        | (Normal (RVal r), w2) => (Fulfilled r, w2)
        | (Normal (RPromise q), w2) => q w2
        | (Throw e, w2) => (Rejected e, w2)
        end
    | (Rejected e, w1) => (Rejected e, w1)
    end.

(** ** Trace operations on the world *)

Definition trace_emit (ph : phase) (f : Fields) (w : World) : World :=
  with_trace (push ph f (now w) (trace (tracer w))) w.

Definition trace_begin := trace_emit PhBegin.
Definition trace_end := trace_emit PhEnd.
Definition trace_instantEvent := trace_emit PhInstant.
Definition trace_completeEvent := trace_emit PhComplete.

Definition trace_flush (w : World) : World :=
  with_trace (flush (trace (tracer w))) w.

(** [++tracer.counter] *)
Definition next_id (w : World) : Z * World :=
  let c := counter (tracer w) + 1 in (c, with_counter c w).

(** ** class Profiler *)

(** [err != null] *)
Definition not_nullish (v : value) : bool :=
  match v with
  | VUndefined | VNull => false
  | _ => true
  end.

(** The error that [session.post] throws on a session that is not
    connected. *)
Definition not_connected : value := VError "ERR_INSPECTOR_NOT_CONNECTED".

(** [session.post] runs inside the executor of [new Promise]: on a session
    that is not connected it throws before anything is sent, and the
    executor turns the throw into a rejection with the error thrown.
    Otherwise the session calls back with [(err, params)]. *)
Definition sendCommand (method : string) (w : World)
  : settlement params * World :=
  match session (profiler (tracer w)) with
  | Some s =>
      if connected s then
        let w1 := note (Post method) w in
        let '(err, reply) := post (origin s) method in
        if not_nullish err then (Rejected VNull, w1) else (Fulfilled reply, w1)
      else (Rejected not_connected, w)
  | None => (Fulfilled PUndefined, w)
  end.

(** [Promise.all] of settled promises: the first rejection wins. *)
Fixpoint promise_all {A : Type} (ps : list (settlement A))
  : settlement (list A) :=
  match ps with
  | [] => Fulfilled []
  | Rejected e :: _ => Rejected e
  | Fulfilled a :: rest =>
      match promise_all rest with
      | Fulfilled l => Fulfilled (a :: l)
      | Rejected e => Rejected e
      end
  end.

Definition startProfiling (w : World)
  : settlement (option (list params)) * World :=
  match inspector w with
  | Some insp =>
      let w1 := with_session (Some {| connected := false; origin := insp |}) w in
      let w2 :=
        note Connect
          (with_session (Some {| connected := true; origin := insp |}) w1) in
      let '(r1, w3) := sendCommand "Profiler.setSamplingInterval" w2 in
      let '(r2, w4) := sendCommand "Profiler.enable" w3 in
      let '(r3, w5) := sendCommand "Profiler.start" w4 in
      match promise_all [r1; r2; r3] with
      | Fulfilled l => (Fulfilled (Some l), w5)
      | Rejected e => (Rejected e, w5)
      end
  | None => (Fulfilled None, w)
  end.

Definition destroy (w : World) : settlement value * World :=
  let w0 := note Destroy w in
  match session (profiler (tracer w0)) with
  | Some s =>
      (Fulfilled VUndefined,
       note Disconnect
         (with_session (Some {| connected := false; origin := origin s |}) w0))
  | None => (Fulfilled VUndefined, w0)
  end.

Definition stopProfiling (w : World) : settlement params * World :=
  sendCommand "Profiler.stop" w.

(** ** createTrace *)

Definition bootstrapCategory : list string :=
  ["disabled-by-default-devtools.timeline"].

Definition startedInPage (id : Z) : Fields :=
  {| f_name := "TracingStartedInPage";
     f_id := id;
     f_cat := bootstrapCategory;
     f_ts := None;
     f_dur := None;
     f_args := Some (JObj [("data", JObj [
       ("sessionId", JStr "-1");
       ("page", JStr "0xfff");
       ("frames", JArr [JObj [
          ("frame", JStr "0xfff"); ("url", JStr "webpack");
          ("name", JStr "")]])])]) |}.

Definition startedInBrowser (id : Z) : Fields :=
  {| f_name := "TracingStartedInBrowser";
     f_id := id;
     f_cat := bootstrapCategory;
     f_ts := None;
     f_dur := None;
     f_args := Some (JObj [("data", JObj [("sessionId", JStr "-1")])]) |}.

(** The local [counter] serves the two bootstrap events; its final value is
    copied into the returned record. *)
Definition createTrace (clock : Z) : Tracer :=
  let trace0 := {| events := []; stream := [] |} in
  let counter0 := 0 in
  let counter1 := counter0 + 1 in
  let trace1 := push PhInstant (startedInPage counter1) clock trace0 in
  let counter2 := counter1 + 1 in
  let trace2 := push PhInstant (startedInBrowser counter2) clock trace1 in
  {| trace := trace2; counter := counter2;
     profiler := {| session := None |} |}.

(** ** makeNewProfiledTapFn *)

Definition defaultCategory : list string := ["blink.user_timing"].

Definition hookFields (name : string) (id : Z) : Fields :=
  {| f_name := name; f_id := id; f_cat := defaultCategory;
     f_ts := None; f_dur := None; f_args := None |}.

Record Tap : Type := mkTap {
  tap_name : string;
  tap_type : string;
  tap_fn : option callable
}.

(** case "promise".  A first-order value has no [then] method, so a
    callable that returns one makes the wrapper throw. *)
Definition profiled_promise (name : string) (fn : option callable) : callable :=
  fun args w =>
    let '(id, w1) := next_id w in
    let w2 := trace_begin (hookFields name id) w1 in
    match call fn args w2 with
    | (Normal (RPromise p), w3) =>
        (Normal (RPromise (then_ p (fun r w' =>
           (Normal (RVal r), trace_end (hookFields name id) w')))), w3)
    | (Normal (RVal _), w3) =>
        (Throw (VTypeError "fn(...).then is not a function"), w3)
    | (Throw error, w3) => (Throw error, w3)
    end.

(** The arrow function [(...r) => { ... }] of case "async", closed over
    [args], [name] and [id]. *)
Definition replacement (name : string) (id : Z) (args : list arg) : callback :=
  fun r w =>
    let k := default 0%nat (popped w !! id) in
    let remaining := take (length args - k) args in
    let callback := last remaining in
    let w1 := with_popped (<[id := S k]> (popped w)) w in
    let w2 := trace_end (hookFields name id) w1 in
    match callback with
    | Some (Fun cb) =>
        match cb r w2 with
        | (Normal _, w3) => (Normal (RVal VUndefined), w3)
        | (Throw error, w3) => (Throw error, w3)
        end
    | _ => (Throw (VTypeError "callback is not a function"), w2)
    end.

(** case "async" *)
Definition profiled_async (name : string) (fn : option callable) : callable :=
  fun args w =>
    let '(id, w1) := next_id w in
    let w2 := trace_begin (hookFields name id) w1 in
    match call fn (args ++ [Fun (replacement name id args)]) w2 with
    | (Normal _, w3) => (Normal (RVal VUndefined), w3)
    | (Throw error, w3) => (Throw error, w3)
    end.

(** case "sync" *)
Definition profiled_sync (name : string) (fn : option callable) : callable :=
  fun args w =>
    let '(id, w1) := next_id w in
    let w2 := trace_begin (hookFields name id) w1 in
    match call fn args w2 with
    | (Throw error, w3) => (Throw error, trace_end (hookFields name id) w3)
    | (Normal r, w3) => (Normal r, trace_end (hookFields name id) w3)
    end.

(** The result is [None] where the JavaScript function returns
    [undefined]. *)
Definition makeNewProfiledTapFn (hookName : string) (opts : Tap)
  : option callable :=
  let name := tap_name opts in
  let fn := tap_fn opts in
  if String.eqb (tap_type opts) "promise" then Some (profiled_promise name fn)
  else if String.eqb (tap_type opts) "async" then Some (profiled_async name fn)
  else if String.eqb (tap_type opts) "sync" then Some (profiled_sync name fn)
  else None.

(** ** makeInterceptorFor *)

Record Interceptor : Type := mkInterceptor {
  register : Tap -> Tap
}.

Definition makeInterceptorFor (instance : string) (hookName : string)
  : Interceptor :=
  {| register := fun t =>
       let newFn := makeNewProfiledTapFn hookName t in
       {| tap_name := tap_name t; tap_type := tap_type t; tap_fn := newFn |} |}.

(** ** ProfilingPlugin.apply *)

Definition containerFields (id cpuStartTime : Z) : Fields :=
  {| f_name := "TaskQueueManager::ProcessTaskFromWorkQueue";
     f_id := id;
     f_cat := ["toplevel"];
     f_ts := Some cpuStartTime;
     f_dur := None;
     f_args := Some (JObj [
       ("src_file", JStr "../../ipc/ipc_moji_bootstrap.cc");
       ("src_func", JStr "Accept")]) |}.

Definition evaluateFields (id cpuStartTime cpuEndTime : Z) : Fields :=
  {| f_name := "EvaluateScript";
     f_id := id;
     f_cat := ["devtools.timeline"];
     f_ts := Some cpuStartTime;
     f_dur := Some (cpuEndTime - cpuStartTime);
     f_args := Some (JObj [("data", JObj [
       ("url", JStr "webpack"); ("lineNumber", JNum 1);
       ("columnNumber", JNum 1); ("frame", JStr "0xFFF")])]) |}.

Definition cpuProfileFields (id cpuEndTime : Z) (p : Profile) : Fields :=
  {| f_name := "CpuProfile";
     f_id := id;
     f_cat := ["disabled-by-default-devtools.timeline"];
     f_ts := Some cpuEndTime;
     f_dur := None;
     f_args := Some (JObj [("data", JObj [("cpuProfile", JProfile p)])]) |}.

(** The three events written when a profile came back (lines 149-189). *)
Definition merge_profile (p : Profile) (w : World) : World :=
  let cpuStartTime := startTime p in
  let cpuEndTime := endTime p in
  let '(id1, w1) := next_id w in
  let w2 := trace_completeEvent (containerFields id1 cpuStartTime) w1 in
  let '(id2, w3) := next_id w2 in
  let w4 :=
    trace_completeEvent (evaluateFields id2 cpuStartTime cpuEndTime) w3 in
  let '(id3, w5) := next_id w4 in
  trace_instantEvent (cpuProfileFields id3 cpuEndTime p) w5.

(** The handler of the "done" hook once [sleep(2000)] has elapsed:
    [stopProfiling().then(parsedResults => ...)].  The result is the
    settlement of the promise that [then] returns, which nothing observes. *)
Definition done_handler (w : World) : settlement value * World :=
  match stopProfiling w with
  | (Rejected reason, w1) => (Rejected reason, w1)
  | (Fulfilled PUndefined, w1) =>
      let w2 := snd (destroy w1) in
      (Fulfilled VUndefined, trace_flush w2)
  | (Fulfilled PEmpty, w1) =>
      (Rejected (VTypeError "Cannot read property 'startTime' of undefined"),
       w1)
  | (Fulfilled (PProfile p), w1) =>
      let w2 := merge_profile p w1 in
      let w3 := snd (destroy w2) in
      (Fulfilled VUndefined, trace_flush w3)
  end.

(** [apply] up to the point where the hooks are intercepted: the tracer is
    created and profiling is started; the promise of [startProfiling] is
    dropped. *)
Definition apply (h : Host) (clock : Z) (insp : option Inspector) : World :=
  let w := {| host := h; now := clock; inspector := insp;
              tracer := createTrace clock; popped := ∅; journal := [] |} in
  snd (startProfiling w).

(** ** Runs

    On the single thread a run is the sequence in which the plugin's call
    sites execute, interleaved with work that happens outside the plugin.
    The tracer is reachable only through the plugin's closures, so outside
    work cannot change it. *)

(** The opening lines shared by the three wrappers:
    [const id = ++tracer.counter; tracer.trace.begin({name, id, cat})]. *)
Definition enter (name : string) (w : World) : World :=
  let '(id, w1) := next_id w in trace_begin (hookFields name id) w1.

Inductive site : Type :=
| Enter (name : string)
| Leave (name : string) (id : Z)
| Done
| Outside (f : World -> World).

Definition visit (s : site) (w : World) : World :=
  match s with
  | Enter name => enter name w
  | Leave name id => trace_end (hookFields name id) w
  | Done => snd (done_handler w)
  | Outside f => with_tracer (tracer w) (f w)
  end.

Definition run (sch : list site) (w : World) : World :=
  foldl (fun w' s => visit s w') w sch.

(** Every phase but [PhEnd] is emitted with an id taken from the counter at
    that moment; an end event repeats the id of its begin event. *)
Definition allocating (e : TraceEvent) : bool :=
  match ev_ph e with
  | PhEnd => false
  | _ => true
  end.

Definition allocated (l : list TraceEvent) : list Z :=
  map ev_id (filter (fun e => allocating e = true) l).

(** ** Auxiliary notions used in the statements *)

(** The two worlds agree on everything a trace viewer will see. *)
Definition same_log (w w' : World) : Prop :=
  log w' = log w /\ counter (tracer w') = counter (tracer w) /\
  now w' = now w /\ stream (trace (tracer w')) = stream (trace (tracer w)).

(** A tap that returns 42 and does nothing else. *)
Definition returns_42 : callable :=
  fun _ w => (Normal (RVal (VNum 42)), w).

(** The ids handed out so far are exactly [1, 2, ..., counter], in the order
    in which their events entered the log. *)
Definition ids_in_order (w : World) : Prop :=
  0 <= counter (tracer w) /\
  allocated (log w) = seqZ 1 (counter (tracer w)).

(** A state change that some interleaving of call sites and outside work
    accounts for. *)
Definition scheduled (f : World -> World) : Prop :=
  forall w, exists sch, f w = run sch w.

(** How often [destroy] has been invoked. *)
Definition destroy_calls (w : World) : nat :=
  length (filter (fun p => p = Destroy) (journal w)).



(** The interceptor of the hook named "build" applied to a sync tap that
    returns 42, whatever the tap is called. *)
Definition build_hook_tap (tapName : string) : Tap :=
  register (makeInterceptorFor "Compiler" "build")
    {| tap_name := tapName; tap_type := "sync"; tap_fn := Some returns_42 |}.

(** ** Notions used for the remaining code *)

(** A callable that reads its first [n] arguments only, works on them, and
    completes by calling its last argument once with values computed from
    them:
    [function (...xs) { const done = xs[xs.length - 1];
                        const ys = xs.slice(0, n); work(ys); done(...r(ys)); }] *)
Definition completes_from (n : nat) (work : list arg -> World -> World)
    (r : list arg -> list value) : callable :=
  fun xs w =>
    match last xs with
    | Some (Fun done) =>
        match done (r (take n xs)) (work (take n xs) w) with
        | (Normal _, w') => (Normal (RVal VUndefined), w')
        | (Throw error, w') => (Throw error, w')
        end
    | _ => (Throw (VTypeError "done is not a function"), work (take n xs) w)
    end.

(** A site other than the "done" handler. *)
Definition before_done (s : site) : Prop :=
  match s with
  | Done => False
  | _ => True
  end.

(** A site before the "done" handler at which the clock does not run
    backwards. *)
Definition steady (s : site) : Prop :=
  match s with
  | Done => False
  | Outside f => forall w, now w <= now (f w)
  | _ => True
  end.

(** Reading a log as brackets: a begin event opens its id, an end event must
    close the id opened last; instant and complete events are skipped.  The
    result is the stack of ids still open, or [None] when an end event does
    not match. *)
Fixpoint brackets (open : list Z) (l : list TraceEvent) : option (list Z) :=
  match l with
  | [] => Some open
  | e :: rest =>
      match ev_ph e with
      | PhBegin => brackets (ev_id e :: open) rest
      | PhEnd =>
          match open with
          | i :: open' =>
              if Z.eqb i (ev_id e) then brackets open' rest else None
          | [] => None
          end
      | _ => brackets open rest
      end
  end.

(** A stretch of log that closes exactly what it opens. *)
Definition balanced (l : list TraceEvent) : Prop :=
  forall open, brackets open l = Some open.

End Plugin.

(** * Hook registries

    The loops of [apply] and its helpers walk the host's registries and hand
    every hook an interceptor.  A hook and its [intercept] method belong to
    the host's hook library; they are parameters here.  An object's hooks are
    kept in the order in which [Object.keys] lists them. *)

Section Registries.

Context {Host : Type}.
Variable Hook : Type.
Variable intercept : @Interceptor Host -> Hook -> Hook.

Record Instance : Type := mkInstance {
  hooks : list (string * Hook)
}.

(** [interceptAllHooksFor(instance, tracer, logLabel)] *)
Definition interceptAllHooksFor (instance : Instance) (logLabel : string)
  : Instance :=
  {| hooks :=
       map (fun kh : string * Hook =>
              (fst kh,
               intercept (makeInterceptorFor logLabel (fst kh)) (snd kh)))
           (hooks instance) |}.

Record ModuleTemplates : Type := mkModuleTemplates {
  javascript : option Instance;
  webassembly : option Instance
}.

(** The fields of a compilation that [interceptTemplateInstancesFrom]
    reads; a field that is [undefined] is [None]. *)
Record Templates : Type := mkTemplates {
  mainTemplate : option Instance;
  chunkTemplate : option Instance;
  hotUpdateChunkTemplate : option Instance;
  moduleTemplates : option ModuleTemplates
}.

(** One turn of the [forEach] over the template objects:
    [Object.keys(templateObject.instance.hooks)] throws when the instance is
    [undefined]. *)
Definition intercept_template (name : string) (instance : option Instance)
  : completion Instance :=
  match instance with
  | Some i => Normal (interceptAllHooksFor i name)
  | None => Throw (VTypeError "Cannot read property 'hooks' of undefined")
  end.

(** [interceptTemplateInstancesFrom(compilation, tracer)]: the templates are
    visited in the order of the array literal; the first [undefined] one
    stops the loop, the ones before it having been intercepted. *)
Definition interceptTemplateInstancesFrom (c : Templates)
  : completion unit * Templates :=
  match moduleTemplates c with
  | None =>
      (Throw (VTypeError "Cannot destructure 'moduleTemplates'"), c)
  | Some mt =>
      match intercept_template "MainTemplate" (mainTemplate c) with
      | Throw e => (Throw e, c)
      | Normal m =>
          let c1 := {| mainTemplate := Some m;
                       chunkTemplate := chunkTemplate c;
                       hotUpdateChunkTemplate := hotUpdateChunkTemplate c;
                       moduleTemplates := moduleTemplates c |} in
          match intercept_template "ChunkTemplate" (chunkTemplate c) with
          | Throw e => (Throw e, c1)
          | Normal ch =>
              let c2 := {| mainTemplate := Some m;
                           chunkTemplate := Some ch;
                           hotUpdateChunkTemplate := hotUpdateChunkTemplate c;
                           moduleTemplates := moduleTemplates c |} in
              match intercept_template "HotUpdateChunkTemplate"
                      (hotUpdateChunkTemplate c) with
              | Throw e => (Throw e, c2)
              | Normal hu =>
                  let c3 := fun mt' =>
                    {| mainTemplate := Some m;
                       chunkTemplate := Some ch;
                       hotUpdateChunkTemplate := Some hu;
                       moduleTemplates := Some mt' |} in
                  match intercept_template "JavaScriptModuleTemplate"
                          (javascript mt) with
                  | Throw e => (Throw e, c3 mt)
                  | Normal js =>
                      let mt1 := {| javascript := Some js;
                                    webassembly := webassembly mt |} in
                      match intercept_template "WebAssemblyModuleTemplate"
                              (webassembly mt) with
                      | Throw e => (Throw e, c3 mt1)
                      | Normal wa =>
                          (Normal tt,
                           c3 {| javascript := Some js;
                                 webassembly := Some wa |})
                      end
                  end
              end
          end
      end
  end.

(** The names of an object's hooks, as [Object.keys] lists them. *)
Definition hook_names (i : Instance) : list string := map fst (hooks i).

(** The five template objects in the order of the array literal. *)
Definition template_list (c : Templates) : list (string * option Instance) :=
  [("MainTemplate", mainTemplate c);
   ("ChunkTemplate", chunkTemplate c);
   ("HotUpdateChunkTemplate", hotUpdateChunkTemplate c);
   ("JavaScriptModuleTemplate", moduleTemplates c ≫= javascript);
   ("WebAssemblyModuleTemplate", moduleTemplates c ≫= webassembly)].

(** A [forEach] that intercepts every object it meets and stops at the
    first [undefined] one. *)
Fixpoint intercept_until (l : list (string * option Instance))
  : list (string * option Instance) :=
  match l with
  | [] => []
  | (name, Some i) :: rest =>
      (name, Some (interceptAllHooksFor i name)) :: intercept_until rest
  | (name, None) :: rest => (name, None) :: rest
  end.

End Registries.

(** * Scenario inputs *)

(** A promise tap whose promise is rejected with the error object 7. *)
Definition rejecting_tap : @callable unit :=
  fun _ w => (Normal (RPromise (fun w' => (Rejected (VObj 7), w'))), w).

(** A promise tap whose promise is fulfilled with 5. *)
Definition resolving_promise : @promise unit :=
  fun w' => (Fulfilled (VNum 5), w').

Definition resolving_tap : @callable unit :=
  fun _ w => (Normal (RPromise resolving_promise), w).

(** For callback-style taps the host state records every argument list that
    the hook's final callback receives. *)
Definition final_callback : @callback (list (list value)) :=
  fun r w => (Normal (RVal VUndefined), with_host (host w ++ [r]) w).

(** [function (...xs) { const done = xs.pop(); done(null, xs.length); }] *)
Definition counts_arguments : @callable (list (list value)) :=
  fun xs w =>
    match last xs with
    | Some (Fun done) =>
        match done [VNull; VNum (Z.of_nat (length xs - 1))] w with
        | (Normal _, w') => (Normal (RVal VUndefined), w')
        | (Throw error, w') => (Throw error, w')
        end
    | _ => (Throw (VTypeError "done is not a function"), w)
    end.

(** [(x, cb) => cb(null, x)] *)
Definition echoes_first : @callable (list (list value)) :=
  fun xs w =>
    match xs !! 1%nat with
    | Some (Fun cb) =>
        let x := match xs !! 0%nat with
                 | Some (Val v) => v
                 | _ => VUndefined
                 end in
        cb [VNull; x] w
    | _ => (Throw (VTypeError "cb is not a function"), w)
    end.

(** An inspector whose session reports an error for "Profiler.stop". *)
Definition stop_fails : Inspector :=
  {| post := fun method =>
       if String.eqb method "Profiler.stop"
       then (VStr "Profiler.stop failed", PUndefined)
       else (VNull, PEmpty) |}.

(** An inspector whose session returns a profile from 1000 to 5000. *)
Definition sample : Profile :=
  {| startTime := 1000; endTime := 5000; nodes := [VObj 1; VObj 2] |}.

Definition sampling : Inspector :=
  {| post := fun method =>
       if String.eqb method "Profiler.stop"
       then (VNull, PProfile sample)
       else (VNull, PEmpty) |}.

(** The worlds in which the scenarios start. *)
Definition callback_world : @World (list (list value)) := apply [] 0 None.

Definition callback_args : list (@arg (list (list value))) :=
  [Val (VNum 7); Fun final_callback].

Definition async_tap (fn : @callable (list (list value)))
  : @Tap (list (list value)) :=
  register (makeInterceptorFor "Compiler" "emit")
    {| tap_name := "plugin"; tap_type := "async"; tap_fn := Some fn |}.

Definition promise_tap (fn : @callable unit) : @Tap unit :=
  register (makeInterceptorFor "Compiler" "emit")
    {| tap_name := "plugin"; tap_type := "promise"; tap_fn := Some fn |}.

Definition weird_tap : @Tap unit :=
  register (makeInterceptorFor "Compiler" "build")
    {| tap_name := "build"; tap_type := "weird"; tap_fn := Some returns_42 |}.

(** Phase and id of each event, for reading a log at a glance. *)
Definition outline (l : list TraceEvent) : list (phase * Z) :=
  map (fun e => (ev_ph e, ev_id e)) l.

(** [function (...xs) { const done = xs.pop(); done(null, 1); done(null, 2); }] *)
Definition fires_twice : @callable (list (list value)) :=
  fun xs w =>
    match last xs with
    | Some (Fun done) =>
        match done [VNull; VNum 1] w with
        | (Normal _, w') =>
            match done [VNull; VNum 2] w' with
            | (Normal _, w'') => (Normal (RVal VUndefined), w'')
            | (Throw error, w'') => (Throw error, w'')
            end
        | (Throw error, w') => (Throw error, w')
        end
    | _ => (Throw (VTypeError "done is not a function"), w)
    end.

(** A sync tap that throws the error object 9. *)
Definition throwing_tap : @callable unit :=
  fun _ w => (Throw (VObj 9), w).

(** The world in which [apply] calls [startProfiling]. *)
Definition new_world (insp : option Inspector) : @World unit :=
  {| host := tt; now := 0; inspector := insp; tracer := createTrace 0;
     popped := ∅; journal := [] |}.



(** A wrapper entry, its end, and outside work that moves the clock. *)
Definition quiet_run : list (@site unit) :=
  [Enter "plugin"; Outside (fun w => with_now (now w + 5) w);
   Leave "plugin" 3].

(** [ys => [null, ys[0]]] *)
Definition first_value (ys : list (@arg (list (list value)))) : list value :=
  [VNull; match ys !! 0%nat with
          | Some (Val v) => v
          | _ => VUndefined
          end].

(** * Properties *)

Section Properties.

Context {Host : Type}.
Implicit Types (w : @World Host) (name hookName : string) (id : Z).

(** ** Basic facts about the trace operations *)

Lemma log_trace_emit ph f w :
  log (trace_emit ph f w) = log w ++ [stamp ph f (now w)].
Proof. reflexivity. Qed.

Lemma counter_trace_emit ph f w :
  counter (tracer (trace_emit ph f w)) = counter (tracer w).
Proof. reflexivity. Qed.

Lemma now_trace_emit ph f w : now (trace_emit ph f w) = now w.
Proof. reflexivity. Qed.

Lemma log_enter name w :
  log (enter name w)
  = log w ++ [stamp PhBegin (hookFields name (counter (tracer w) + 1)) (now w)].
Proof. reflexivity. Qed.

Lemma counter_enter name w :
  counter (tracer (enter name w)) = counter (tracer w) + 1.
Proof. reflexivity. Qed.

Lemma now_enter name w : now (enter name w) = now w.
Proof. reflexivity. Qed.

(** The switch of [makeNewProfiledTapFn], one case at a time. *)
Lemma makeNewProfiledTapFn_sync hookName name (fn : option (@callable Host)) :
  makeNewProfiledTapFn hookName
    {| tap_name := name; tap_type := "sync"; tap_fn := fn |}
  = Some (profiled_sync name fn).
Proof. reflexivity. Qed.

Lemma makeNewProfiledTapFn_async hookName name (fn : option (@callable Host)) :
  makeNewProfiledTapFn hookName
    {| tap_name := name; tap_type := "async"; tap_fn := fn |}
  = Some (profiled_async name fn).
Proof. reflexivity. Qed.

Lemma makeNewProfiledTapFn_promise hookName name (fn : option (@callable Host)) :
  makeNewProfiledTapFn hookName
    {| tap_name := name; tap_type := "promise"; tap_fn := fn |}
  = Some (profiled_promise name fn).
Proof. reflexivity. Qed.

(** ** Synchronous taps *)

(** The wrapper of a synchronous tap is the underlying call run between
    [enter] and one [trace_end]; the completion is passed on as it is. *)
Lemma profiled_sync_unfold name (fn : @callable Host) args w :
  profiled_sync name (Some fn) args w
  = (fst (fn args (enter name w)),
     trace_end (hookFields name (counter (tracer w) + 1))
       (snd (fn args (enter name w)))).
Proof.
  unfold profiled_sync, enter, next_id, call.
  destruct (fn args _) as [[r|e] w3]; reflexivity.
Qed.

(** C1: the wrapper installed for a "sync" tap ends the way the underlying
    callable ends (same returned value, same thrown error object).  It runs
    the callable after one begin event that carries the tap's name and the
    counter's next value as id, which the counter then holds, and it appends
    one end event with the same name and id to whatever the callable left in
    the log, on the returning and on the throwing path alike. *)
Theorem sync_wrapper_transparent hookName name (fn : @callable Host) args w :
  exists wrapped : callable,
    makeNewProfiledTapFn hookName
      {| tap_name := name; tap_type := "sync"; tap_fn := Some fn |}
    = Some wrapped /\
    let id := counter (tracer w) + 1 in
    let w_in := enter name w in
    let w_fn := snd (fn args w_in) in
    let w_out := snd (wrapped args w) in
    let b := {| ev_name := name; ev_id := id;
                ev_cat := ["blink.user_timing"]; ev_ph := PhBegin;
                ev_ts := now w; ev_dur := None; ev_args := None |} in
    let e := {| ev_name := name; ev_id := id;
                ev_cat := ["blink.user_timing"]; ev_ph := PhEnd;
                ev_ts := now w_fn; ev_dur := None; ev_args := None |} in
    log w_in = log w ++ [b] /\
    log w_in = log w ++ [stamp PhBegin (hookFields name id) (now w)] /\
    counter (tracer w) < id /\
    counter (tracer w_in) = id /\
    fst (wrapped args w) = fst (fn args w_in) /\
    w_out = trace_end (hookFields name id) w_fn /\
    log w_out = log w_fn ++ [e] /\
    log w_out = log w_fn ++ [stamp PhEnd (hookFields name id) (now w_fn)] /\
    counter (tracer w_out) = counter (tracer w_fn) /\
    ev_id b = ev_id e /\
    host w_out = host w_fn.
Proof.
  exists (profiled_sync name (Some fn)). split; [reflexivity|].
  cbv zeta. rewrite profiled_sync_unfold. cbn [fst snd].
  repeat split. lia.
Qed.

(** ** The profiler leaves the log, the counter and the clock alone *)

Lemma same_log_refl w : same_log w w.
Proof. repeat split. Qed.

Lemma same_log_trans w1 w2 w3 :
  same_log w1 w2 -> same_log w2 w3 -> same_log w1 w3.
Proof. unfold same_log. intuition congruence. Qed.

Lemma sendCommand_same_log method w : same_log w (snd (sendCommand method w)).
Proof.
  unfold sendCommand.
  destruct (session _) as [s|]; [|apply same_log_refl].
  destruct (connected s); [|apply same_log_refl].
  destruct (post _ _) as [err reply].
  destruct (not_nullish err); repeat split.
Qed.

Lemma startProfiling_same_log w : same_log w (snd (startProfiling w)).
Proof.
  unfold startProfiling.
  destruct (inspector w) as [insp|]; [|apply same_log_refl].
  set (w2 := note Connect _).
  assert (H2 : same_log w w2) by repeat split.
  pose proof (sendCommand_same_log "Profiler.setSamplingInterval" w2) as H3.
  destruct (sendCommand "Profiler.setSamplingInterval" w2) as [r1 w3].
  pose proof (sendCommand_same_log "Profiler.enable" w3) as H4.
  destruct (sendCommand "Profiler.enable" w3) as [r2 w4].
  pose proof (sendCommand_same_log "Profiler.start" w4) as H5.
  destruct (sendCommand "Profiler.start" w4) as [r3 w5].
  cbn [snd] in *.
  assert (H : same_log w w5) by eauto using same_log_trans.
  destruct (promise_all _); exact H.
Qed.

Lemma destroy_same_log w : same_log w (snd (destroy w)).
Proof.
  unfold destroy. cbn.
  destruct (session _); repeat split.
Qed.

Lemma log_apply (h : Host) clock insp :
  log (apply h clock insp)
  = [stamp PhInstant (startedInPage 1) clock;
     stamp PhInstant (startedInBrowser 2) clock].
Proof.
  unfold apply.
  match goal with |- log (snd (startProfiling ?w)) = _ =>
    destruct (startProfiling_same_log w) as (-> & _) end.
  reflexivity.
Qed.

Lemma counter_apply (h : Host) clock insp :
  counter (tracer (apply h clock insp)) = 2.
Proof.
  unfold apply.
  match goal with |- counter (tracer (snd (startProfiling ?w))) = _ =>
    destruct (startProfiling_same_log w) as (_ & -> & _) end.
  reflexivity.
Qed.

Lemma now_apply (h : Host) clock insp : now (apply h clock insp) = clock.
Proof.
  unfold apply.
  match goal with |- now (snd (startProfiling ?w)) = _ =>
    destruct (startProfiling_same_log w) as (_ & _ & -> & _) end.
  reflexivity.
Qed.

(** ** The "build" scenario *)

(** C7 (amended): on the tracer that [apply] builds, a sync tap that
    returns 42, registered on the hook named "build" and invoked once,
    appends a begin event and an end event that carry the tap's own name,
    whatever it is, and id 3, the two bootstrap events having taken ids 1
    and 2; it hands 42 back. *)
Theorem build_scenario_id_3 (h : Host) clock insp tapName :
  let w0 := apply h clock insp in
  let r := call (tap_fn (build_hook_tap tapName)) [] w0 in
  fst r = Normal (RVal (VNum 42)) /\
  log (snd r)
  = log w0 ++ [{| ev_name := tapName; ev_id := 3;
                  ev_cat := ["blink.user_timing"]; ev_ph := PhBegin;
                  ev_ts := clock; ev_dur := None; ev_args := None |};
               {| ev_name := tapName; ev_id := 3;
                  ev_cat := ["blink.user_timing"]; ev_ph := PhEnd;
                  ev_ts := clock; ev_dur := None; ev_args := None |}] /\
  map (fun e => (ev_ph e, ev_name e, ev_id e)) (log w0)
  = [(PhInstant, "TracingStartedInPage", 1);
     (PhInstant, "TracingStartedInBrowser", 2)].
Proof.
  cbv zeta. unfold build_hook_tap, makeInterceptorFor. cbn [register tap_fn].
  rewrite makeNewProfiledTapFn_sync. cbn [tap_name call].
  rewrite profiled_sync_unfold. unfold returns_42. cbn [fst snd].
  unfold trace_end.
  rewrite log_trace_emit, log_enter, now_enter, counter_apply, now_apply.
  rewrite log_apply. repeat split.
Qed.

(** ** Ids across a run *)

Lemma allocated_app (l1 l2 : list TraceEvent) :
  allocated (l1 ++ l2) = allocated l1 ++ allocated l2.
Proof. unfold allocated. now rewrite filter_app, map_app. Qed.

Lemma allocated_end f clock : allocated [stamp PhEnd f clock] = [].
Proof. reflexivity. Qed.

Lemma allocated_other ph f clock :
  ph <> PhEnd -> allocated [stamp ph f clock] = [f_id f].
Proof. destruct ph; intros H; try reflexivity. now destruct H. Qed.

Lemma seqZ_snoc (c : Z) : 0 <= c -> seqZ 1 (c + 1) = seqZ 1 c ++ [c + 1].
Proof.
  intros Hc. rewrite seqZ_app by lia.
  rewrite (seqZ_cons (1 + c)) by lia.
  rewrite (seqZ_nil _ (Z.pred 1)) by lia.
  now replace (1 + c) with (c + 1) by lia.
Qed.

Lemma seqZ_sorted (k : nat) : forall m, StronglySorted Z.lt (seqZ m (Z.of_nat k)).
Proof.
  induction k as [|k IH]; intros m.
  - rewrite seqZ_nil by lia. constructor.
  - rewrite seqZ_cons by lia.
    replace (Z.pred (Z.of_nat (S k))) with (Z.of_nat k) by lia.
    constructor; [apply IH|].
    apply Forall_seqZ. intros; lia.
Qed.

Lemma ids_in_order_emit ph f w :
  ph <> PhEnd -> f_id f = counter (tracer w) + 1 ->
  ids_in_order w ->
  ids_in_order (trace_emit ph f (snd (next_id w))).
Proof.
  intros Hph Hid [Hc Hw]. split.
  - cbn. lia.
  - rewrite log_trace_emit, allocated_app, allocated_other by exact Hph.
    change (log (snd (next_id w))) with (log w). rewrite Hw, Hid.
    cbn [counter tracer trace_emit with_trace with_tracer next_id snd
         with_counter]. now rewrite seqZ_snoc.
Qed.

Lemma ids_in_order_enter name w : ids_in_order w -> ids_in_order (enter name w).
Proof. intros H. now apply (ids_in_order_emit PhBegin (hookFields name _)). Qed.

Lemma ids_in_order_leave name id w :
  ids_in_order w -> ids_in_order (trace_end (hookFields name id) w).
Proof.
  intros [Hc Hw]. split; [exact Hc|].
  unfold trace_end. rewrite log_trace_emit, allocated_app, allocated_end.
  rewrite app_nil_r. exact Hw.
Qed.

Lemma ids_in_order_same_log w w' :
  same_log w w' -> ids_in_order w -> ids_in_order w'.
Proof. intros (Hl & Hc & _) [H0 H]. split; congruence. Qed.

Lemma ids_in_order_merge p w : ids_in_order w -> ids_in_order (merge_profile p w).
Proof.
  intros H. unfold merge_profile.
  apply (ids_in_order_emit PhInstant (cpuProfileFields _ _ p));
    [discriminate|reflexivity|].
  apply (ids_in_order_emit PhComplete (evaluateFields _ _ _));
    [discriminate|reflexivity|].
  now apply (ids_in_order_emit PhComplete (containerFields _ _)).
Qed.

Lemma ids_in_order_flush w : ids_in_order w -> ids_in_order (trace_flush w).
Proof. intros H. exact H. Qed.

Lemma ids_in_order_done w : ids_in_order w -> ids_in_order (snd (done_handler w)).
Proof.
  intros H. unfold done_handler, stopProfiling.
  pose proof (sendCommand_same_log "Profiler.stop" w) as Hs.
  destruct (sendCommand "Profiler.stop" w) as [[[| |p]|e] w1]; cbn [snd] in *.
  - apply ids_in_order_flush.
    eapply ids_in_order_same_log; [apply destroy_same_log|].
    eapply ids_in_order_same_log; eauto.
  - eapply ids_in_order_same_log; eauto.
  - apply ids_in_order_flush.
    eapply ids_in_order_same_log; [apply destroy_same_log|].
    apply ids_in_order_merge.
    eapply ids_in_order_same_log; eauto.
  - eapply ids_in_order_same_log; eauto.
Qed.

Lemma ids_in_order_visit s w : ids_in_order w -> ids_in_order (visit s w).
Proof.
  destruct s as [name|name id| |f]; cbn [visit].
  - apply ids_in_order_enter.
  - apply ids_in_order_leave.
  - apply ids_in_order_done.
  - intros H. exact H.
Qed.

Lemma ids_in_order_run sch : forall w, ids_in_order w -> ids_in_order (run sch w).
Proof.
  induction sch as [|s sch IH]; intros w H; [exact H|].
  apply IH, ids_in_order_visit, H.
Qed.

Lemma ids_in_order_apply (h : Host) clock insp :
  ids_in_order (apply h clock insp).
Proof.
  split.
  - rewrite counter_apply. lia.
  - rewrite log_apply, counter_apply. reflexivity.
Qed.

(** C4: whatever the interleaving of wrapper entries, wrapper completions,
    finalizations and outside work after [apply], the ids of the events that
    take an id from the counter (the bootstrap events, every begin event and
    the merge events) are, in log order, 1, 2, ..., counter: strictly
    increasing and without repetition. *)
Theorem ids_strictly_increasing (h : Host) clock insp (sch : list site) :
  let w := run sch (apply h clock insp) in
  allocated (log w) = seqZ 1 (counter (tracer w)) /\
  StronglySorted Z.lt (allocated (log w)) /\
  NoDup (allocated (log w)).
Proof.
  cbv zeta.
  destruct (ids_in_order_run sch _ (ids_in_order_apply h clock insp))
    as [Hc Hw].
  rewrite Hw. split; [reflexivity|]. split.
  - rewrite <- (Z2Nat.id (counter _)) by exact Hc. apply seqZ_sorted.
  - apply NoDup_seqZ.
Qed.

(** ** The wrappers touch the tracer only at their call sites *)

Lemma run_app sch1 sch2 w : run (sch1 ++ sch2) w = run sch2 (run sch1 w).
Proof. apply foldl_app. Qed.

Lemma scheduled_outside (f : @World Host -> @World Host) :
  (forall w, tracer (f w) = tracer w) -> scheduled f.
Proof.
  intros H w. exists [Outside f]. cbn. rewrite <- (H w).
  now destruct (f w).
Qed.

Lemma profiled_sync_scheduled name (fn : @callable Host) :
  (forall args, scheduled (fun w => snd (fn args w))) ->
  forall args, scheduled (fun w => snd (profiled_sync name (Some fn) args w)).
Proof.
  intros H args w. rewrite profiled_sync_unfold. cbn [snd].
  destruct (H args (enter name w)) as [sch Hsch].
  exists (Enter name :: sch ++ [Leave name (counter (tracer w) + 1)]).
  change (run (Enter name :: ?s) w) with (run s (enter name w)).
  rewrite run_app, <- Hsch. reflexivity.
Qed.

(** ** Promise taps *)

Lemma profiled_promise_unfold name (fn : @callable Host) args w :
  profiled_promise name (Some fn) args w
  = match fn args (enter name w) with
    | (Normal (RPromise p), w3) =>
        (Normal (RPromise (then_ p (fun r w' =>
           (Normal (RVal r),
            trace_end (hookFields name (counter (tracer w) + 1)) w')))), w3)
    | (Normal (RVal _), w3) =>
        (Throw (VTypeError "fn(...).then is not a function"), w3)
    | (Throw error, w3) => (Throw error, w3)
    end.
Proof. reflexivity. Qed.

(** The call itself adds the begin event and nothing else to what the
    underlying callable does. *)
Lemma profiled_promise_call name (fn : @callable Host) args w :
  snd (profiled_promise name (Some fn) args w) = snd (fn args (enter name w)).
Proof.
  rewrite profiled_promise_unfold.
  destruct (fn args _) as [[[v|p]|e] w3]; reflexivity.
Qed.

Lemma then_end_fulfilled name id (p : @promise Host) w2 v w3 :
  p w2 = (Fulfilled v, w3) ->
  then_ p (fun r w' => (Normal (RVal r), trace_end (hookFields name id) w')) w2
  = (Fulfilled v, trace_end (hookFields name id) w3).
Proof. intros H. unfold then_. now rewrite H. Qed.

Lemma then_end_rejected name id (p : @promise Host) w2 reason w3 :
  p w2 = (Rejected reason, w3) ->
  then_ p (fun r w' => (Normal (RVal r), trace_end (hookFields name id) w')) w2
  = (Rejected reason, w3).
Proof. intros H. unfold then_. now rewrite H. Qed.

Lemma then_end_scheduled name id (p : @promise Host) :
  scheduled (fun w => snd (p w)) ->
  scheduled (fun w =>
    snd (then_ p (fun r w' =>
           (Normal (RVal r), trace_end (hookFields name id) w')) w)).
Proof.
  intros H w. destruct (H w) as [sch Hsch]. cbn [snd] in Hsch.
  destruct (p w) as [[v|reason] w3] eqn:Hp; cbn [snd] in Hsch.
  - rewrite (then_end_fulfilled _ _ _ _ _ _ Hp). cbn [snd].
    exists (sch ++ [Leave name id]). rewrite run_app, <- Hsch. reflexivity.
  - rewrite (then_end_rejected _ _ _ _ _ _ Hp). cbn [snd].
    exists sch. exact Hsch.
Qed.

(** C9: when the underlying callable of a "promise" tap returns a promise
    that is fulfilled with [v], the promise returned by the wrapper is
    fulfilled with [v] as well, its end event carries the id of the begin
    event, and, the clock at the settlement being no earlier than at the
    call, the end event's timestamp is no earlier than the begin event's. *)
Theorem promise_wrapper_resolves hookName name (fn : @callable Host) args
    w p w1 v w2 w3 :
  fn args (enter name w) = (Normal (RPromise p), w1) ->
  p w2 = (Fulfilled v, w3) ->
  now w <= now w3 ->
  exists (wrapped : callable) (p' : promise),
    makeNewProfiledTapFn hookName
      {| tap_name := name; tap_type := "promise"; tap_fn := Some fn |}
    = Some wrapped /\
    wrapped args w = (Normal (RPromise p'), w1) /\
    let b := stamp PhBegin (hookFields name (counter (tracer w) + 1)) (now w) in
    let e := stamp PhEnd (hookFields name (counter (tracer w) + 1)) (now w3) in
    log (enter name w) = log w ++ [b] /\
    fst (p' w2) = Fulfilled v /\
    log (snd (p' w2)) = log w3 ++ [e] /\
    ev_id e = ev_id b /\
    ev_ts b <= ev_ts e.
Proof.
  intros Hfn Hp Hclock.
  eexists. eexists. split; [apply makeNewProfiledTapFn_promise|].
  rewrite profiled_promise_unfold, Hfn. split; [reflexivity|].
  cbv zeta. rewrite (then_end_fulfilled _ _ _ _ _ _ Hp).
  repeat split. exact Hclock.
Qed.

(** On rejection the continuation is skipped: the wrapper's promise is
    rejected with the same reason and the world is the one the underlying
    promise left. *)
Lemma promise_wrapper_rejects name (fn : @callable Host) args
    w p w1 reason w2 w3 :
  fn args (enter name w) = (Normal (RPromise p), w1) ->
  p w2 = (Rejected reason, w3) ->
  exists p' : promise,
    profiled_promise name (Some fn) args w = (Normal (RPromise p'), w1) /\
    p' w2 = (Rejected reason, w3).
Proof.
  intros Hfn Hp. eexists.
  rewrite profiled_promise_unfold, Hfn. split; [reflexivity|].
  apply then_end_rejected, Hp.
Qed.

(** ** Callback-style taps *)

Lemma profiled_async_unfold name (fn : @callable Host) args w :
  profiled_async name (Some fn) args w
  = match fn (args ++ [Fun (replacement name (counter (tracer w) + 1) args)])
            (enter name w) with
    | (Normal _, w3) => (Normal (RVal VUndefined), w3)
    | (Throw error, w3) => (Throw error, w3)
    end.
Proof. reflexivity. Qed.

(** The underlying callable receives the whole of [args], the original
    trailing callback included, followed by the replacement. *)
Lemma profiled_async_call name (fn : @callable Host) args w :
  snd (profiled_async name (Some fn) args w)
  = snd (fn (args ++ [Fun (replacement name (counter (tracer w) + 1) args)])
           (enter name w)).
Proof.
  rewrite profiled_async_unfold.
  destruct (fn _ _) as [[r|e] w3]; reflexivity.
Qed.

(** The first time the replacement fires, it pops the original trailing
    callback, writes the end event and hands over the values it received. *)
Lemma replacement_first_firing name id (args : list (@arg Host)) cb r w :
  popped w !! id = None ->
  last args = Some (Fun cb) ->
  replacement name id args r w
  = match cb r (trace_end (hookFields name id)
                  (with_popped (<[id := 1%nat]> (popped w)) w)) with
    | (Normal _, w3) => (Normal (RVal VUndefined), w3)
    | (Throw error, w3) => (Throw error, w3)
    end.
Proof.
  intros Hpop Hlast. unfold replacement.
  rewrite Hpop. cbn [default].
  rewrite Nat.sub_0_r, firstn_all, Hlast. reflexivity.
Qed.

(** A later firing pops what precedes the callback in [args]. *)
Lemma replacement_later_firing name id (args : list (@arg Host)) k r w :
  popped w !! id = Some k ->
  match last (take (length args - k) args) with
  | Some (Fun _) => False
  | _ => True
  end ->
  replacement name id args r w
  = (Throw (VTypeError "callback is not a function"),
     trace_end (hookFields name id)
       (with_popped (<[id := S k]> (popped w)) w)).
Proof.
  intros Hpop Hlast. unfold replacement. rewrite Hpop. cbn [default].
  destruct (last _) as [[v|cb]|]; try reflexivity. destruct Hlast.
Qed.

(** ** Finalization *)

Lemma destroy_calls_note p w :
  destroy_calls (note p w)
  = (destroy_calls w + (if decide (p = Destroy) then 1 else 0))%nat.
Proof.
  unfold destroy_calls. cbn [note journal].
  rewrite filter_app, length_app. f_equal.
  rewrite filter_cons, filter_nil. now destruct (decide _).
Qed.

Lemma destroy_calls_sendCommand method w :
  destroy_calls (snd (sendCommand method w)) = destroy_calls w.
Proof.
  unfold sendCommand. destruct (session _) as [s|]; [|reflexivity].
  destruct (connected s); [|reflexivity].
  destruct (post _ _) as [err reply].
  destruct (not_nullish err); cbn [snd]; rewrite destroy_calls_note;
    rewrite decide_False by discriminate; lia.
Qed.

Lemma destroy_calls_destroy w :
  destroy_calls (snd (destroy w)) = S (destroy_calls w).
Proof.
  unfold destroy. cbn [note journal tracer profiler].
  destruct (session _) as [s|]; cbn [snd].
  - rewrite destroy_calls_note, decide_False by discriminate.
    change (destroy_calls (with_session ?s ?w')) with (destroy_calls w').
    rewrite destroy_calls_note, decide_True by reflexivity. lia.
  - rewrite destroy_calls_note, decide_True by reflexivity. lia.
Qed.

Lemma destroy_calls_emit ph f w :
  destroy_calls (trace_emit ph f w) = destroy_calls w.
Proof. reflexivity. Qed.

Lemma destroy_calls_merge p w : destroy_calls (merge_profile p w) = destroy_calls w.
Proof. reflexivity. Qed.

(** Whenever [stopProfiling] is fulfilled with nothing or with a profile,
    finalization invokes [destroy] once. *)
Lemma done_handler_destroys_once w reply w1 :
  stopProfiling w = (Fulfilled reply, w1) ->
  reply <> PEmpty ->
  destroy_calls (snd (done_handler w)) = S (destroy_calls w).
Proof.
  intros Hstop Hreply. unfold done_handler. rewrite Hstop.
  assert (Hw1 : destroy_calls w1 = destroy_calls w).
  { change w1 with (snd (Fulfilled reply, w1)). rewrite <- Hstop.
    apply destroy_calls_sendCommand. }
  destruct reply as [| |p]; cbn [snd]; [|now destruct Hreply|].
  - change (destroy_calls (trace_flush ?w')) with (destroy_calls w').
    now rewrite destroy_calls_destroy, Hw1.
  - change (destroy_calls (trace_flush ?w')) with (destroy_calls w').
    now rewrite destroy_calls_destroy, destroy_calls_merge, Hw1.
Qed.

(** When it is rejected, the handler does not run at all. *)
Lemma done_handler_rejected w reason w1 :
  stopProfiling w = (Rejected reason, w1) ->
  done_handler w = (Rejected reason, w1) /\
  destroy_calls w1 = destroy_calls w.
Proof.
  intros Hstop. unfold done_handler. rewrite Hstop. split; [reflexivity|].
  change w1 with (snd (@Rejected params reason, w1)). rewrite <- Hstop.
  apply destroy_calls_sendCommand.
Qed.

Lemma stopProfiling_reply w s :
  session (profiler (tracer w)) = Some s ->
  connected s = true ->
  stopProfiling w
  = (if not_nullish (fst (post (origin s) "Profiler.stop"))
     then Rejected VNull
     else Fulfilled (snd (post (origin s) "Profiler.stop")),
     note (Post "Profiler.stop") w).
Proof.
  intros Hs Hc. unfold stopProfiling, sendCommand. rewrite Hs, Hc.
  destruct (post _ _) as [err reply]. cbn [fst snd].
  now destruct (not_nullish err).
Qed.

Lemma done_handler_profile w s p :
  session (profiler (tracer w)) = Some s ->
  connected s = true ->
  not_nullish (fst (post (origin s) "Profiler.stop")) = false ->
  snd (post (origin s) "Profiler.stop") = PProfile p ->
  done_handler w
  = (Fulfilled VUndefined,
     trace_flush (snd (destroy
       (merge_profile p (note (Post "Profiler.stop") w))))).
Proof.
  intros Hs Hc Herr Hp. unfold done_handler.
  rewrite (stopProfiling_reply _ _ Hs Hc), Herr, Hp. reflexivity.
Qed.

Lemma log_merge_profile p w :
  let c := counter (tracer w) in
  log (merge_profile p w)
  = log w ++
    [stamp PhComplete (containerFields (c + 1) (startTime p)) (now w);
     stamp PhComplete
       (evaluateFields (c + 1 + 1) (startTime p) (endTime p)) (now w);
     stamp PhInstant (cpuProfileFields (c + 1 + 1 + 1) (endTime p) p) (now w)].
Proof.
  cbv zeta. unfold merge_profile. cbn -[Z.add Z.sub].
  now rewrite <- !app_assoc.
Qed.

(** C6: with an open, connected session whose reply to "Profiler.stop" is a
    profile running from 1000 to 5000, finalization appends, in this order, the
    container complete event, the "EvaluateScript" complete event with
    ts = 1000 and dur = 4000, and the "CpuProfile" instant event at
    ts = 5000 whose args hold the whole profile; then it flushes. *)
Theorem finalize_merges_sample w s p :
  session (profiler (tracer w)) = Some s ->
  connected s = true ->
  not_nullish (fst (post (origin s) "Profiler.stop")) = false ->
  snd (post (origin s) "Profiler.stop") = PProfile p ->
  startTime p = 1000 ->
  endTime p = 5000 ->
  exists container evaluate payload,
    let w' := snd (done_handler w) in
    log w' = log w ++ [container; evaluate; payload] /\
    stream (trace (tracer w')) = stream (trace (tracer w)) ++ log w' /\
    (ev_name container = "TaskQueueManager::ProcessTaskFromWorkQueue" /\
     ev_ph container = PhComplete /\ ev_ts container = 1000) /\
    (ev_name evaluate = "EvaluateScript" /\ ev_ph evaluate = PhComplete /\
     ev_ts evaluate = 1000 /\ ev_dur evaluate = Some 4000) /\
    (ev_name payload = "CpuProfile" /\ ev_ph payload = PhInstant /\
     ev_ts payload = 5000 /\
     ev_args payload
     = Some (JObj [("data", JObj [("cpuProfile", JProfile p)])])) /\
    map ev_id [container; evaluate; payload]
    = [counter (tracer w) + 1; counter (tracer w) + 2; counter (tracer w) + 3].
Proof.
  intros Hs Hc Herr Hp Hstart Hend.
  do 3 eexists. cbv zeta.
  rewrite (done_handler_profile _ _ _ Hs Hc Herr Hp). cbn [snd].
  assert (Hlog : forall w0, log (trace_flush (snd (destroy w0))) = log w0).
  { intros w0. destruct (destroy_same_log w0) as (Hl & _). exact Hl. }
  assert (Hstream : forall w0,
    stream (trace (tracer (trace_flush (snd (destroy w0)))))
    = stream (trace (tracer w0)) ++ log w0).
  { intros w0. destruct (destroy_same_log w0) as (Hl & _ & _ & Hst).
    cbn [trace_flush with_trace with_tracer tracer trace flush stream].
    unfold log in Hl. now rewrite Hst, Hl. }
  rewrite Hstream, Hlog, log_merge_profile. cbv zeta.
  split; [reflexivity|]. split; [reflexivity|].
  cbn -[Z.add Z.sub]. rewrite Hstart, Hend.
  repeat split; f_equal; try lia. repeat (f_equal; try lia).
Qed.

(** ** Without the inspector *)

Lemma startProfiling_without_inspector w :
  inspector w = None -> startProfiling w = (Fulfilled None, w).
Proof. intros H. unfold startProfiling. now rewrite H. Qed.







(** ** Unrecognised type tags *)

Lemma makeNewProfiledTapFn_default hookName (t : @Tap Host) :
  tap_type t <> "promise" -> tap_type t <> "async" -> tap_type t <> "sync" ->
  makeNewProfiledTapFn hookName t = None.
Proof.
  intros Hp Ha Hs. unfold makeNewProfiledTapFn.
  apply String.eqb_neq in Hp, Ha, Hs. now rewrite Hp, Ha, Hs.
Qed.

Lemma register_default instance hookName (t : @Tap Host) :
  tap_type t <> "promise" -> tap_type t <> "async" -> tap_type t <> "sync" ->
  register (makeInterceptorFor instance hookName) t
  = {| tap_name := tap_name t; tap_type := tap_type t; tap_fn := None |}.
Proof.
  intros Hp Ha Hs. cbn [makeInterceptorFor register].
  now rewrite makeNewProfiledTapFn_default.
Qed.

Lemma replacement_scheduled name id (args : list (@arg Host)) r :
  Forall (fun a => match a with
                   | Fun cb => forall r', scheduled (fun w => snd (cb r' w))
                   | Val _ => True
                   end) args ->
  scheduled (fun w => snd (replacement name id args r w)).
Proof.
  intros Hargs w. unfold replacement.
  set (k := default 0%nat (popped w !! id)).
  set (w1 := with_popped _ w).
  assert (Hw2 : trace_end (hookFields name id) w1
                = run [Outside (with_popped (<[id := S k]> (popped w)));
                       Leave name id] w) by reflexivity.
  destruct (last _) as [[v|cb]|] eqn:Hlast.
  - eexists. exact Hw2.
  - assert (Hcb : forall r', scheduled (fun w => snd (cb r' w))).
    { apply last_Some_elem_of in Hlast.
      apply subseteq_take in Hlast.
      rewrite Forall_forall in Hargs. apply (Hargs _ Hlast). }
    destruct (Hcb r (trace_end (hookFields name id) w1)) as [sch Hsch].
    cbn [snd] in Hsch.
    exists ([Outside (with_popped (<[id := S k]> (popped w))); Leave name id]
            ++ sch).
    rewrite run_app, <- Hw2, <- Hsch.
    destruct (cb r _) as [[ret|e] w3]; reflexivity.
  - eexists. exact Hw2.
Qed.

Lemma profiled_async_scheduled name (fn : @callable Host) :
  (forall args, scheduled (fun w => snd (fn args w))) ->
  forall args, scheduled (fun w => snd (profiled_async name (Some fn) args w)).
Proof.
  intros H args w. rewrite profiled_async_call.
  destruct (H (args ++ [Fun (replacement name (counter (tracer w) + 1) args)])
              (enter name w)) as [sch Hsch].
  exists (Enter name :: sch). exact Hsch.
Qed.

Lemma profiled_promise_scheduled name (fn : @callable Host) :
  (forall args, scheduled (fun w => snd (fn args w))) ->
  forall args, scheduled (fun w => snd (profiled_promise name (Some fn) args w)).
Proof.
  intros H args w. rewrite profiled_promise_call.
  destruct (H args (enter name w)) as [sch Hsch].
  exists (Enter name :: sch). exact Hsch.
Qed.

(** In a world where the ids are in order, the next id is larger than
    every id handed out before. *)
Lemma next_id_fresh w :
  ids_in_order w ->
  Forall (fun i => i < fst (next_id w)) (allocated (log w)).
Proof.
  intros [Hc Hw]. rewrite Hw. apply Forall_seqZ. cbn. lia.
Qed.

(** * Further properties of the code *)

(** ** class Profiler *)

(** X1: [sendCommand] never passes on the error that the session reports
    through its callback.  Its promise is rejected in two cases only: the
    session is connected and called back with a non-null [err], and then the
    reason is [null]; or the session is not connected, [session.post] threw,
    and then the reason is the error thrown and nothing was posted.  Without
    a session it is never rejected. *)
Theorem sendCommand_rejection_reason method w reason :
  fst (sendCommand method w) = Rejected reason ->
  exists s,
    session (profiler (tracer w)) = Some s /\
    ((connected s = true /\
      not_nullish (fst (post (origin s) method)) = true /\
      reason = VNull /\
      journal (snd (sendCommand method w)) = journal w ++ [Post method]) \/
     (connected s = false /\
      reason = not_connected /\
      snd (sendCommand method w) = w)).
Proof.
  unfold sendCommand. destruct (session _) as [s|]; [|discriminate].
  destruct (connected s) eqn:Hc.
  - destruct (post (origin s) method) as [err reply] eqn:Hpost.
    destruct (not_nullish err) eqn:Herr; [|discriminate].
    intros H. injection H as <-. exists s. split; [reflexivity|]. left.
    rewrite Hpost. repeat split; assumption.
  - intros H. injection H as <-. exists s. split; [reflexivity|]. right.
    repeat split; assumption.
Qed.

Lemma sendCommand_with_session method w s :
  session (profiler (tracer w)) = Some s ->
  connected s = true ->
  sendCommand method w
  = (if not_nullish (fst (post (origin s) method))
     then Rejected VNull
     else Fulfilled (snd (post (origin s) method)),
     note (Post method) w).
Proof.
  intros Hs Hc. unfold sendCommand. rewrite Hs, Hc.
  destruct (post _ _) as [err reply]. cbn [fst snd].
  now destruct (not_nullish err).
Qed.

(** X2: with the inspector at hand, [startProfiling] opens and connects a
    session and posts its three commands in order, whether or not an earlier
    one failed; its promise is rejected, with [null], exactly when the
    session reported an error for one of them, and otherwise fulfilled with
    the three replies in order. *)
Theorem startProfiling_posts_all_three insp w :
  inspector w = Some insp ->
  let r := startProfiling w in
  let methods :=
    ["Profiler.setSamplingInterval"; "Profiler.enable"; "Profiler.start"] in
  journal (snd r) = journal w ++ Connect :: map Post methods /\
  session (profiler (tracer (snd r)))
  = Some {| connected := true; origin := insp |} /\
  (fst r = Rejected VNull <->
   Exists (fun m => not_nullish (fst (post insp m)) = true) methods) /\
  (fst r <> Rejected VNull ->
   fst r = Fulfilled (Some (map (fun m => snd (post insp m)) methods))).
Proof.
  intros Hi. cbv zeta. unfold startProfiling. rewrite Hi.
  cbn [map]. rewrite !Exists_cons, Exists_nil.
  set (w2 := note Connect _).
  rewrite (sendCommand_with_session _ w2 {| connected := true; origin := insp |})
    by reflexivity.
  rewrite (sendCommand_with_session _ (note _ w2)
             {| connected := true; origin := insp |}) by reflexivity.
  rewrite (sendCommand_with_session _ (note _ (note _ w2))
             {| connected := true; origin := insp |}) by reflexivity.
  cbn [origin].
  destruct (post insp "Profiler.setSamplingInterval") as [e1 p1].
  destruct (post insp "Profiler.enable") as [e2 p2].
  destruct (post insp "Profiler.start") as [e3 p3].
  cbn [fst snd].
  destruct (not_nullish e1), (not_nullish e2), (not_nullish e3);
    cbn [promise_all fst snd];
    (split; [cbn; now rewrite <- !app_assoc|]);
    (split; [reflexivity|]).
  all: split; solve [ intuition (try discriminate; try congruence) ].
Qed.

(** X3: the profiler's methods never write to the trace: log, counter,
    clock and output stream are as before. *)
Theorem profiler_never_traces w :
  same_log w (snd (startProfiling w)) /\
  same_log w (snd (stopProfiling w)) /\
  same_log w (snd (destroy w)).
Proof.
  split; [apply startProfiling_same_log|].
  split; [apply sendCommand_same_log|apply destroy_same_log].
Qed.

(** X4: [destroy] is fulfilled with [undefined] whatever the state; it
    leaves the session in place, disconnected, and destroying again makes no
    further change to the tracer. *)
Theorem destroy_idempotent w :
  fst (destroy w) = Fulfilled VUndefined /\
  session (profiler (tracer (snd (destroy w))))
  = (fun s => {| connected := false; origin := origin s |})
      <$> session (profiler (tracer w)) /\
  tracer (snd (destroy (snd (destroy w)))) = tracer (snd (destroy w)).
Proof.
  unfold destroy. cbn [note tracer].
  destruct (session (profiler (tracer w))) as [s|] eqn:Hs; cbn; rewrite ?Hs;
    repeat split.
Qed.

(** ** makeInterceptorFor and makeNewProfiledTapFn *)

(** X5: [register] keeps the name and the type of a tap, and the tap it
    returns has a callable exactly when the type is "promise", "async" or
    "sync" (a tap whose own [fn] is [undefined] gets a wrapper all the
    same). *)
Theorem register_callable_iff instance hookName (t : @Tap Host) :
  let t' := register (makeInterceptorFor instance hookName) t in
  tap_name t' = tap_name t /\
  tap_type t' = tap_type t /\
  (is_Some (tap_fn t') <->
   tap_type t = "promise" \/ tap_type t = "async" \/ tap_type t = "sync").
Proof.
  cbv zeta. cbn [makeInterceptorFor register tap_name tap_type tap_fn].
  split; [reflexivity|]. split; [reflexivity|].
  unfold makeNewProfiledTapFn.
  destruct (String.eqb_spec (tap_type t) "promise") as [Hp|Hp];
    [split; [now left|eauto]|].
  destruct (String.eqb_spec (tap_type t) "async") as [Ha|Ha];
    [split; [now right; left|eauto]|].
  destruct (String.eqb_spec (tap_type t) "sync") as [Hs|Hs];
    [split; [now right; right|eauto]|].
  split; [intros [f Hf]; discriminate|tauto].
Qed.


(** X7: when the underlying callable of a promise tap throws before it
    returns a promise, the wrapper throws the same error and the world is
    the one the callable left: the begin event stays without an end
    event. *)
Theorem promise_wrapper_sync_throw name (fn : @callable Host) args w error w1 :
  fn args (enter name w) = (Throw error, w1) ->
  profiled_promise name (Some fn) args w = (Throw error, w1) /\
  log (enter name w)
  = log w ++ [stamp PhBegin (hookFields name (counter (tracer w) + 1)) (now w)].
Proof.
  intros H. rewrite profiled_promise_unfold, H. split; reflexivity.
Qed.


(** X9: for an underlying callable that reads only the hook's own [n]
    arguments and completes by calling its last argument once, with values
    computed from those arguments, wrapping is transparent: the hook's
    original callback receives the same values as without the wrapper, in a
    world that differs by the begin event written before the callable ran
    and the end event written before the callback runs. *)
Theorem async_wrapper_last_argument_style name n work r data
    (cb : @callback Host) w :
  let id := counter (tracer w) + 1 in
  let w1 := work data (enter name w) in
  let w2 := trace_end (hookFields name id)
              (with_popped (<[id := 1%nat]> (popped w1)) w1) in
  length data = n ->
  popped w1 !! id = None ->
  completes_from n work r (data ++ [Fun cb]) w
  = match cb (r data) (work data w) with
    | (Normal _, w3) => (Normal (RVal VUndefined), w3)
    | (Throw error, w3) => (Throw error, w3)
    end /\
  profiled_async name (Some (completes_from n work r)) (data ++ [Fun cb]) w
  = match cb (r data) w2 with
    | (Normal _, w3) => (Normal (RVal VUndefined), w3)
    | (Throw error, w3) => (Throw error, w3)
    end /\
  log (enter name w)
  = log w ++ [{| ev_name := name; ev_id := id;
                 ev_cat := ["blink.user_timing"]; ev_ph := PhBegin;
                 ev_ts := now w; ev_dur := None; ev_args := None |}] /\
  log w2
  = log w1 ++ [{| ev_name := name; ev_id := id;
                  ev_cat := ["blink.user_timing"]; ev_ph := PhEnd;
                  ev_ts := now w1; ev_dur := None; ev_args := None |}] /\
  host w2 = host w1.
Proof.
  cbv zeta. intros Hn Hpop.
  assert (Ht : take n (data ++ [Fun cb]) = data)
    by (subst n; apply take_app_length).
  split; [|split; [|repeat split]].
  - unfold completes_from. now rewrite last_snoc, Ht.
  - rewrite profiled_async_unfold. unfold completes_from.
    rewrite last_snoc, <- app_assoc.
    replace (take n (data ++ [Fun cb] ++ _)) with data
      by (subst n; symmetry; apply take_app_length).
    rewrite (replacement_first_firing _ _ _ cb _ _ Hpop) by apply last_snoc.
    destruct (cb (r data) _) as [[ret|e] w3]; reflexivity.
Qed.

(** ** Runs *)

Lemma log_flush_destroy w : log (trace_flush (snd (destroy w))) = log w.
Proof. destruct (destroy_same_log w) as (Hl & _). exact Hl. Qed.

Lemma counter_flush_destroy w :
  counter (tracer (trace_flush (snd (destroy w)))) = counter (tracer w).
Proof. destruct (destroy_same_log w) as (_ & Hc & _). exact Hc. Qed.

Lemma stream_flush_destroy w :
  stream (trace (tracer (trace_flush (snd (destroy w)))))
  = stream (trace (tracer w)) ++ log w.
Proof.
  destruct (destroy_same_log w) as (Hl & _ & _ & Hst).
  cbn [trace_flush with_trace with_tracer tracer trace flush stream].
  unfold log in Hl. now rewrite Hst, Hl.
Qed.

Lemma counter_merge_profile p w :
  counter (tracer (merge_profile p w)) = counter (tracer w) + 3.
Proof. cbn. lia. Qed.

Lemma visit_appends_only s w :
  log w `prefix_of` log (visit s w) /\
  counter (tracer w) <= counter (tracer (visit s w)).
Proof.
  destruct s as [name|name id| |f]; cbn [visit].
  - rewrite log_enter, counter_enter. split; [now eexists|lia].
  - unfold trace_end. rewrite log_trace_emit, counter_trace_emit.
    split; [now eexists|lia].
  - unfold done_handler, stopProfiling.
    destruct (sendCommand_same_log "Profiler.stop" w) as (Hl & Hc & _).
    destruct (sendCommand "Profiler.stop" w) as [[[| |p]|e] w1];
      cbn [snd] in *.
    + rewrite log_flush_destroy, counter_flush_destroy, Hl, Hc.
      split; [reflexivity|lia].
    + rewrite Hl, Hc. split; [reflexivity|lia].
    + rewrite log_flush_destroy, counter_flush_destroy.
      rewrite log_merge_profile, counter_merge_profile, Hl, Hc.
      split; [now eexists|lia].
    + rewrite Hl, Hc. split; [reflexivity|lia].
  - split; [reflexivity|]. cbn. lia.
Qed.

(** X10: the log is append-only and the counter never goes down: after any
    run the earlier log is a prefix of the later one, and the counter is at
    least what it was. *)
Theorem run_appends_only sch : forall w,
  log w `prefix_of` log (run sch w) /\
  counter (tracer w) <= counter (tracer (run sch w)).
Proof.
  induction sch as [|s sch IH]; intros w; [split; [reflexivity|cbn; lia]|].
  change (run (s :: sch) w) with (run sch (visit s w)).
  destruct (visit_appends_only s w) as [Hl Hc].
  destruct (IH (visit s w)) as [Hl' Hc'].
  split; [etrans; eassumption|lia].
Qed.

Lemma stream_visit_before_done s w :
  before_done s ->
  stream (trace (tracer (visit s w))) = stream (trace (tracer w)).
Proof. destruct s; [reflexivity|reflexivity|intros []|reflexivity]. Qed.

(** X11: nothing is written to the piped stream before the "done" handler
    runs: a run made of wrapper entries, end emissions and outside work
    leaves the stream as it was. *)
Theorem nothing_written_before_done sch : forall w,
  Forall before_done sch ->
  stream (trace (tracer (run sch w))) = stream (trace (tracer w)).
Proof.
  induction sch as [|s sch IH]; intros w H; [reflexivity|].
  apply Forall_cons in H as [Hs H].
  change (run (s :: sch) w) with (run sch (visit s w)).
  now rewrite (IH _ H), stream_visit_before_done.
Qed.

(** ** The "done" handler *)


(** X13: finalization is all or nothing.  Either the handler runs to its
    end, and then [destroy] was invoked once and the log was flushed; or the
    promise chain is rejected, and then no event was added, [destroy] was
    not invoked and nothing was flushed. *)
Theorem finalization_all_or_nothing w :
  let r := done_handler w in
  let w' := snd r in
  (fst r = Fulfilled VUndefined /\
   destroy_calls w' = S (destroy_calls w) /\
   stream (trace (tracer w')) = stream (trace (tracer w)) ++ log w') \/
  ((exists reason, fst r = Rejected reason) /\
   log w' = log w /\
   destroy_calls w' = destroy_calls w /\
   stream (trace (tracer w')) = stream (trace (tracer w))).
Proof.
  cbv zeta. unfold done_handler, stopProfiling.
  destruct (sendCommand_same_log "Profiler.stop" w) as (Hl & Hc & _ & Hst).
  pose proof (destroy_calls_sendCommand "Profiler.stop" w) as Hd.
  destruct (sendCommand "Profiler.stop" w) as [[[| |p]|e] w1];
    cbn [fst snd] in *.
  - left. rewrite stream_flush_destroy, log_flush_destroy.
    change (destroy_calls (trace_flush ?w0)) with (destroy_calls w0).
    rewrite destroy_calls_destroy, Hd, Hst. repeat split.
  - right. split; [eauto|]. repeat split; assumption.
  - left. rewrite stream_flush_destroy, log_flush_destroy.
    change (destroy_calls (trace_flush ?w0)) with (destroy_calls w0).
    rewrite destroy_calls_destroy, destroy_calls_merge, Hd.
    change (stream (trace (tracer (merge_profile p w1))))
      with (stream (trace (tracer w1))).
    rewrite Hst. repeat split.
  - right. split; [eauto|]. repeat split; assumption.
Qed.

(** ** Order in the log *)

Lemma brackets_app open l1 l2 :
  brackets open (l1 ++ l2) = brackets open l1 ≫= fun o => brackets o l2.
Proof.
  revert open. induction l1 as [|e l1 IH]; intros open; [reflexivity|].
  cbn [app brackets]. destruct (ev_ph e); try apply IH.
  destruct open as [|i open]; [reflexivity|].
  destruct (Z.eqb i (ev_id e)); [apply IH|reflexivity].
Qed.

(** X17: sync wrappers keep the log well bracketed: when the events that
    the underlying callable adds close exactly what they open, so do the
    events of the wrapped call, which are the begin event, those events and
    the end event. *)
Theorem sync_wrapper_balanced name (fn : @callable Host) args w mid :
  log (snd (fn args (enter name w))) = log (enter name w) ++ mid ->
  balanced mid ->
  exists added,
    log (snd (profiled_sync name (Some fn) args w)) = log w ++ added /\
    head added
    = Some (stamp PhBegin (hookFields name (counter (tracer w) + 1)) (now w)) /\
    length added = S (S (length mid)) /\
    balanced added.
Proof.
  intros Hmid Hbal. rewrite profiled_sync_unfold. cbn [snd].
  unfold trace_end. rewrite log_trace_emit, Hmid, log_enter.
  eexists. split; [rewrite <- !app_assoc; reflexivity|].
  split; [reflexivity|]. split.
  { cbn [app length]. rewrite length_app. cbn. lia. }
  intros open. cbn [app brackets stamp ev_ph ev_id hookFields f_id].
  rewrite brackets_app, Hbal. cbn [mbind option_bind brackets stamp ev_ph
    ev_id hookFields f_id]. now rewrite Z.eqb_refl.
Qed.

Lemma timely_snoc (l : list Z) (t : Z) :
  StronglySorted Z.le l -> Forall (fun x => x <= t) l ->
  StronglySorted Z.le (l ++ [t]) /\ Forall (fun x => x <= t) (l ++ [t]).
Proof.
  intros Hs Hb. split.
  - apply StronglySorted_app_2; [|exact Hs|repeat constructor].
    intros x1 x2 H1 H2. apply list_elem_of_singleton in H2 as ->.
    rewrite Forall_forall in Hb. now apply Hb.
  - apply Forall_app. split; [exact Hb|]. repeat constructor. lia.
Qed.

Lemma timely_visit s w :
  steady s ->
  StronglySorted Z.le (map ev_ts (log w)) /\
  Forall (fun x => x <= now w) (map ev_ts (log w)) ->
  StronglySorted Z.le (map ev_ts (log (visit s w))) /\
  Forall (fun x => x <= now (visit s w)) (map ev_ts (log (visit s w))).
Proof.
  intros Hs [Hsorted Hbound].
  destruct s as [name|name id| |f]; cbn [visit steady] in *.
  - rewrite log_enter, now_enter, map_app. now apply timely_snoc.
  - unfold trace_end. rewrite log_trace_emit, now_trace_emit, map_app.
    now apply timely_snoc.
  - destruct Hs.
  - change (log (with_tracer (tracer w) (f w))) with (log w).
    change (now (with_tracer (tracer w) (f w))) with (now (f w)).
    split; [exact Hsorted|].
    eapply Forall_impl; [exact Hbound|]. intros x Hx. cbn beta in *.
    specialize (Hs w). lia.
Qed.

(** X18: until the "done" handler runs, and as long as the clock does not
    run backwards, the timestamps in the log are in non-decreasing order. *)
Theorem timestamps_sorted_before_done (h : Host) clock insp sch :
  Forall steady sch ->
  StronglySorted Z.le (map ev_ts (log (run sch (apply h clock insp)))).
Proof.
  intros Hsch.
  assert (H0 : StronglySorted Z.le (map ev_ts (log (apply h clock insp))) /\
               Forall (fun x => x <= now (apply h clock insp))
                 (map ev_ts (log (apply h clock insp)))).
  { rewrite log_apply, now_apply. cbn. split.
    - repeat constructor; lia.
    - repeat constructor; lia. }
  revert H0. generalize (apply h clock insp).
  induction Hsch as [|s sch Hs Hsch IH]; intros w H0; [apply H0|].
  change (run (s :: sch) w) with (run sch (visit s w)).
  apply IH, timely_visit; assumption.
Qed.

End Properties.

(** * Properties of the registry walks *)

Section RegistryProperties.

Context {Host : Type}.
Variable Hook : Type.
Variable intercept : @Interceptor Host -> Hook -> Hook.

(** X14: the interceptor does not depend on the registry label or on the
    hook name: every hook of every registry is handed the same [register]
    function, and the events of a wrapped tap carry the tap's own name
    only. *)
Theorem interceptor_ignores_label (l1 h1 l2 h2 : string) :
  @makeInterceptorFor Host l1 h1 = makeInterceptorFor l2 h2 /\
  forall (i : Instance Hook),
    interceptAllHooksFor Hook intercept i l1
    = interceptAllHooksFor Hook intercept i l2.
Proof. split; [reflexivity|]. intros i. reflexivity. Qed.

(** [interceptAllHooksFor] hands every hook of the object to
    [intercept] once and keeps the hooks' names and their order; an object
    without hooks is returned as it is. *)
Lemma interceptAllHooksFor_keeps_names (i : Instance Hook) logLabel :
  let i' := interceptAllHooksFor Hook intercept i logLabel in
  hook_names Hook i' = hook_names Hook i /\
  length (hooks Hook i') = length (hooks Hook i) /\
  (forall n hookName hook,
     hooks Hook i !! n = Some (hookName, hook) ->
     hooks Hook i' !! n
     = Some (hookName,
             intercept (makeInterceptorFor logLabel hookName) hook)) /\
  (hooks Hook i = [] -> i' = i).
Proof.
  cbv zeta. unfold hook_names, interceptAllHooksFor. cbn [hooks].
  split; [|split; [|split]].
  - rewrite map_map. cbn [fst]. reflexivity.
  - apply length_map.
  - intros n hookName hook H.
    change (map ?f ?l) with (f <$> l). rewrite list_lookup_fmap, H.
    reflexivity.
  - intros H. destruct i as [hs]. cbn in *. now rewrite H.
Qed.

Local Ltac no_undefined :=
  match goal with
  | H : is_Some None |- _ => exact (is_Some_None H)
  end.

(** X15: [interceptTemplateInstancesFrom] returns normally exactly when
    [moduleTemplates] and the five templates are all defined, and throws a
    TypeError otherwise. *)
Theorem templates_normal_iff (c : Templates Hook) :
  let r := fst (interceptTemplateInstancesFrom Hook intercept c) in
  (r = Normal tt <->
   is_Some (moduleTemplates Hook c) /\
   Forall (fun t => is_Some (snd t)) (template_list Hook c)) /\
  (r = Normal tt \/ exists msg, r = Throw (VTypeError msg)).
Proof.
  cbv zeta. unfold template_list.
  destruct c as [[m|] [ch|] [hu|] [[[js|] [wa|]]|]];
    cbn [interceptTemplateInstancesFrom intercept_template fst snd
         moduleTemplates mainTemplate chunkTemplate hotUpdateChunkTemplate
         javascript webassembly mbind option_bind];
    rewrite !Forall_cons, Forall_nil; cbn [snd];
    (split; [|first [left; reflexivity|right; eexists; reflexivity]]);
    (split;
     [intros H; first [discriminate H|repeat split; eauto]
     |intros H; first [reflexivity|exfalso; destruct_and?; no_undefined]]).
Qed.

(** X16: when [moduleTemplates] is defined, the templates end up as a
    [forEach] that stops at the first [undefined] template leaves them:
    those before it are intercepted under their labels, those after it are
    untouched. *)
Theorem templates_intercepted_until_undefined m ch hu
    (mt : ModuleTemplates Hook) :
  let c := {| mainTemplate := m; chunkTemplate := ch;
              hotUpdateChunkTemplate := hu; moduleTemplates := Some mt |} in
  template_list Hook (snd (interceptTemplateInstancesFrom Hook intercept c))
  = intercept_until Hook intercept (template_list Hook c).
Proof.
  cbv zeta. destruct m, ch, hu, mt as [[js|] [wa|]]; reflexivity.
Qed.

End RegistryProperties.

(** * Concrete scenarios *)

(** C7 (as stated): the claim fails on the plugin's own tracer.  With the
    hook and the tap both named "build" the events do not have id 1; with
    the hook named "build" and the tap named "MyPlugin" they are not named
    "build" either. *)
Lemma build_scenario_not_id_1 :
  let w0 := @apply unit tt 0 None in
  let outcome tapName :=
    let r := call (tap_fn (build_hook_tap tapName)) [] w0 in
    (fst r,
     map (fun e => (ev_ph e, ev_name e, ev_id e)) (drop 2 (log (snd r)))) in
  let claimed :=
    (@Normal (@jsret unit) (RVal (VNum 42)),
     [(PhBegin, "build", 1); (PhEnd, "build", 1)]) in
  outcome "build"
  = (Normal (RVal (VNum 42)), [(PhBegin, "build", 3); (PhEnd, "build", 3)]) /\
  snd (outcome "build") <> snd claimed /\
  outcome "MyPlugin"
  = (Normal (RVal (VNum 42)),
     [(PhBegin, "MyPlugin", 3); (PhEnd, "MyPlugin", 3)]) /\
  snd (outcome "MyPlugin") <> snd claimed.
Proof.
  cbv zeta. split; [reflexivity|]. split; [discriminate|].
  split; [reflexivity|discriminate].
Qed.

(** The throwing path of a sync tap: the error object comes out as it went
    in, after the end event. *)
Example sync_wrapper_rethrows :
  let r := profiled_sync "plugin" (Some throwing_tap) [] (apply tt 0 None) in
  fst r = Throw (VObj 9) /\
  outline (log (snd r))
  = [(PhInstant, 1); (PhInstant, 2); (PhBegin, 3); (PhEnd, 3)].
Proof. split; reflexivity. Qed.

(** C2: an underlying callable that passes on how many arguments came
    before its trailing callback.  Unwrapped, the hook's final callback
    receives [(null, 1)]; wrapped, the callable is handed the original
    callback as one more argument and the final callback receives
    [(null, 2)]. *)
Theorem async_wrapper_extra_argument :
  host (snd (counts_arguments callback_args callback_world))
  = [[VNull; VNum 1]] /\
  host (snd (call (tap_fn (async_tap counts_arguments))
               callback_args callback_world))
  = [[VNull; VNum 2]].
Proof. split; reflexivity. Qed.

(** The usual two-parameter callable never sees the replacement: it calls
    the original callback itself, and the begin event stays without its
    end event. *)
Example async_wrapper_never_ends :
  let w := snd (call (tap_fn (async_tap echoes_first))
                  callback_args callback_world) in
  host w = [[VNull; VNum 7]] /\
  outline (log w) = [(PhInstant, 1); (PhInstant, 2); (PhBegin, 3)].
Proof. split; reflexivity. Qed.

(** A callable that completes twice: the second firing of the replacement
    pops the hook argument 7 instead of a callback, writes a second end
    event and throws. *)
Example async_wrapper_second_firing :
  let r := call (tap_fn (async_tap fires_twice)) callback_args callback_world in
  host (snd (fires_twice callback_args callback_world))
  = [[VNull; VNum 1]; [VNull; VNum 2]] /\
  fst r = Throw (VTypeError "callback is not a function") /\
  host (snd r) = [[VNull; VNum 1]] /\
  outline (log (snd r))
  = [(PhInstant, 1); (PhInstant, 2); (PhBegin, 3); (PhEnd, 3); (PhEnd, 3)].
Proof. repeat split. Qed.

(** C3: a promise tap rejected with the error object 7.  The wrapper's
    promise is rejected with the same object, and the log ends with the
    begin event of id 3: no end event was written. *)
Theorem promise_rejection_leaves_begin_open :
  let w0 := @apply unit tt 0 None in
  match call (tap_fn (promise_tap rejecting_tap)) [] w0 with
  | (Normal (RPromise p'), w1) =>
      fst (p' w1) = Rejected (VObj 7) /\
      outline (log (snd (p' w1)))
      = [(PhInstant, 1); (PhInstant, 2); (PhBegin, 3)]
  | _ => False
  end.
Proof. cbv zeta. split; reflexivity. Qed.

(** C5: the session reports an error for "Profiler.stop".  The promise of
    [stopProfiling] is rejected with [null], the handler is skipped, and
    [destroy] is not invoked; nothing is flushed and the session stays
    connected. *)
Theorem destroy_skipped_when_stop_fails :
  let w := @apply unit tt 0 (Some stop_fails) in
  let w' := snd (done_handler w) in
  fst (done_handler w) = Rejected VNull /\
  destroy_calls w' = 0%nat /\
  journal w'
  = [Connect; Post "Profiler.setSamplingInterval"; Post "Profiler.enable";
     Post "Profiler.start"; Post "Profiler.stop"] /\
  stream (trace (tracer w')) = [] /\
  (connected <$> session (profiler (tracer w'))) = Some true.
Proof. cbv zeta. repeat split. Qed.

(** A second "done" after a finalization that went through (watch mode):
    the session is still stored but no longer connected, [session.post]
    throws, and the handler is skipped again, this time with the error
    thrown as the reason. *)
Example stop_after_destroy :
  let w := snd (done_handler (@apply unit tt 0 (Some sampling))) in
  fst (done_handler w) = Rejected not_connected /\
  snd (done_handler w) = w /\
  destroy_calls w = 1%nat.
Proof. cbv zeta. split; [|split]; vm_compute; reflexivity. Qed.

(** The same finalization with a session that answers, and with no session
    at all: [destroy] is invoked once. *)
Example destroy_once_when_stop_succeeds :
  destroy_calls (snd (done_handler (@apply unit tt 0 (Some sampling)))) = 1%nat /\
  destroy_calls (snd (done_handler (@apply unit tt 0 None))) = 1%nat.
Proof. split; reflexivity. Qed.

(** C10: registering a tap whose type is "weird" yields a tap whose [fn] is
    [undefined]; calling it throws. *)
Theorem unknown_type_loses_callable :
  tap_fn weird_tap = None /\
  forall w : @World unit,
    call (tap_fn weird_tap) [] w
    = (Throw (VTypeError "fn is not a function"), w).
Proof. split; reflexivity. Qed.

(** The merge at work: the session of [sampling] answers with [sample]. *)
Lemma finalize_merges_sample_witness :
  let w := @apply unit tt 0 (Some sampling) in
  exists container evaluate payload,
    let w' := snd (done_handler w) in
    log w' = log w ++ [container; evaluate; payload] /\
    stream (trace (tracer w')) = stream (trace (tracer w)) ++ log w' /\
    (ev_name container = "TaskQueueManager::ProcessTaskFromWorkQueue" /\
     ev_ph container = PhComplete /\ ev_ts container = 1000) /\
    (ev_name evaluate = "EvaluateScript" /\ ev_ph evaluate = PhComplete /\
     ev_ts evaluate = 1000 /\ ev_dur evaluate = Some 4000) /\
    (ev_name payload = "CpuProfile" /\ ev_ph payload = PhInstant /\
     ev_ts payload = 5000 /\
     ev_args payload
     = Some (JObj [("data", JObj [("cpuProfile", JProfile sample)])])) /\
    map ev_id [container; evaluate; payload]
    = [counter (tracer w) + 1; counter (tracer w) + 2; counter (tracer w) + 3].
Proof.
  apply (finalize_merges_sample (@apply unit tt 0 (Some sampling))
           {| connected := true; origin := sampling |} sample);
    reflexivity.
Defined.

(** A promise tap fulfilled with 5, ten microseconds after the call. *)
Lemma promise_wrapper_resolves_witness :
  let w := @apply unit tt 0 None in
  let w1 := enter "plugin" w in
  let w2 := with_now 10 w1 in
  exists (wrapped : callable) (p' : promise),
    makeNewProfiledTapFn "emit"
      {| tap_name := "plugin"; tap_type := "promise";
         tap_fn := Some resolving_tap |}
    = Some wrapped /\
    wrapped [] w = (Normal (RPromise p'), w1) /\
    let b := stamp PhBegin (hookFields "plugin" (counter (tracer w) + 1)) (now w) in
    let e := stamp PhEnd (hookFields "plugin" (counter (tracer w) + 1)) (now w2) in
    log (enter "plugin" w) = log w ++ [b] /\
    fst (p' w2) = Fulfilled (VNum 5) /\
    log (snd (p' w2)) = log w2 ++ [e] /\
    ev_id e = ev_id b /\
    ev_ts b <= ev_ts e.
Proof.
  cbv zeta.
  apply (promise_wrapper_resolves "emit" "plugin" resolving_tap []
           (@apply unit tt 0 None) resolving_promise
           (enter "plugin" (@apply unit tt 0 None)) (VNum 5)
           (with_now 10 (enter "plugin" (@apply unit tt 0 None)))
           (with_now 10 (enter "plugin" (@apply unit tt 0 None))));
    [reflexivity|reflexivity|].
  cbn. lia.
Defined.

(** * Instances of the further properties *)

(** The session of [stop_fails] is connected and reports a string; the
    rejection carries [null]. *)
Lemma sendCommand_rejection_reason_witness :
  let w := @apply unit tt 0 (Some stop_fails) in
  fst (sendCommand "Profiler.stop" w) = Rejected VNull /\
  exists s,
    session (profiler (tracer w)) = Some s /\
    ((connected s = true /\
      not_nullish (fst (post (origin s) "Profiler.stop")) = true /\
      VNull = VNull /\
      journal (snd (sendCommand "Profiler.stop" w))
      = journal w ++ [Post "Profiler.stop"]) \/
     (connected s = false /\
      VNull = not_connected /\
      snd (sendCommand "Profiler.stop" w) = w)).
Proof.
  cbv zeta. split; [reflexivity|].
  apply (sendCommand_rejection_reason "Profiler.stop"
           (@apply unit tt 0 (Some stop_fails)) VNull).
  reflexivity.
Defined.

(** Starting the profiler against [stop_fails], whose session accepts the
    three start commands. *)
Lemma startProfiling_posts_all_three_witness :
  let r := startProfiling (new_world (Some stop_fails)) in
  let methods :=
    ["Profiler.setSamplingInterval"; "Profiler.enable"; "Profiler.start"] in
  journal (snd r) = journal (new_world (Some stop_fails))
                    ++ Connect :: map Post methods /\
  session (profiler (tracer (snd r)))
  = Some {| connected := true; origin := stop_fails |} /\
  (fst r = Rejected VNull <->
   Exists (fun m => not_nullish (fst (post stop_fails m)) = true) methods) /\
  (fst r <> Rejected VNull ->
   fst r = Fulfilled (Some (map (fun m => snd (post stop_fails m)) methods))).
Proof.
  apply (startProfiling_posts_all_three stop_fails
           (new_world (Some stop_fails))).
  reflexivity.
Defined.

(** A promise tap that throws the error object 9 at once. *)
Lemma promise_wrapper_sync_throw_witness :
  let w := @apply unit tt 0 None in
  profiled_promise "plugin" (Some throwing_tap) [] w
  = (Throw (VObj 9), enter "plugin" w) /\
  log (enter "plugin" w)
  = log w ++ [stamp PhBegin (hookFields "plugin" (counter (tracer w) + 1))
                (now w)].
Proof.
  apply (promise_wrapper_sync_throw "plugin" throwing_tap []
           (@apply unit tt 0 None) (VObj 9)
           (enter "plugin" (@apply unit tt 0 None))).
  reflexivity.
Defined.

(** A one-argument hook whose callable hands [(null, x)] to its last
    argument, [x] being the hook's argument. *)
Lemma async_wrapper_last_argument_style_witness :
  let w := callback_world in
  let id := counter (tracer w) + 1 in
  let w1 := enter "plugin" w in
  let w2 := trace_end (hookFields "plugin" id)
              (with_popped (<[id := 1%nat]> (popped w1)) w1) in
  completes_from 1 (fun _ w' => w') first_value
    ([Val (VNum 7)] ++ [Fun final_callback]) w
  = match final_callback [VNull; VNum 7] w with
    | (Normal _, w3) => (Normal (RVal VUndefined), w3)
    | (Throw error, w3) => (Throw error, w3)
    end /\
  profiled_async "plugin" (Some (completes_from 1 (fun _ w' => w') first_value))
    ([Val (VNum 7)] ++ [Fun final_callback]) w
  = match final_callback [VNull; VNum 7] w2 with
    | (Normal _, w3) => (Normal (RVal VUndefined), w3)
    | (Throw error, w3) => (Throw error, w3)
    end /\
  log (enter "plugin" w)
  = log w ++ [{| ev_name := "plugin"; ev_id := id;
                 ev_cat := ["blink.user_timing"]; ev_ph := PhBegin;
                 ev_ts := now w; ev_dur := None; ev_args := None |}] /\
  log w2
  = log w1 ++ [{| ev_name := "plugin"; ev_id := id;
                  ev_cat := ["blink.user_timing"]; ev_ph := PhEnd;
                  ev_ts := now w1; ev_dur := None; ev_args := None |}] /\
  host w2 = host w1.
Proof.
  apply (async_wrapper_last_argument_style "plugin" 1%nat (fun _ w' => w')
           first_value [Val (VNum 7)] final_callback callback_world);
    reflexivity.
Defined.

(** Nothing reaches the stream during [quiet_run]. *)
Lemma nothing_written_before_done_witness :
  stream (trace (tracer (run quiet_run (apply tt 0 None)))) = [].
Proof.
  apply (nothing_written_before_done quiet_run (apply tt 0 None)).
  repeat constructor.
Defined.


(** A sync tap that calls nothing else adds no event of its own. *)
Lemma sync_wrapper_balanced_witness :
  exists added,
    log (snd (profiled_sync "build" (Some returns_42) []
                (@apply unit tt 0 None)))
    = log (@apply unit tt 0 None) ++ added /\
    head added
    = Some (stamp PhBegin
              (hookFields "build" (counter (tracer (@apply unit tt 0 None)) + 1))
              (now (@apply unit tt 0 None))) /\
    length added = S (S (length (@nil TraceEvent))) /\
    balanced added.
Proof.
  apply (sync_wrapper_balanced "build" returns_42 [] (@apply unit tt 0 None) []).
  - reflexivity.
  - intros open. reflexivity.
Defined.

(** The clock only moves forward during [quiet_run]. *)
Lemma timestamps_sorted_before_done_witness :
  StronglySorted Z.le
    (map ev_ts (log (run quiet_run (@apply unit tt 0 None)))).
Proof.
  apply (timestamps_sorted_before_done tt 0 None quiet_run).
  repeat constructor. intros w. cbn. lia.
Defined.
